(** * CSVWriter (src/csv_writer.py), shallow embedding

    The module writes two CSV files for the Mumbai traffic simulation:
    per-vehicle samples ([write_data]) and hazard events
    ([write_hazard_event]), after a header step ([initialize_files]).

    Modelling choices:
    - Python values are the inductive [pyval]; floats are exact dyadic
      values [(-1)^neg * m * 2^e] plus infinities and NaN, so that the
      ["{:.2f}"] formatting can be computed exactly.
    - The rows handed to [csv.writer.writerow] are stored as lists of
      [pyval], which is what the file receives; [csv_line] gives their
      text for rows whose cells are ints and strings.
    - The filesystem is a [gmap] from path strings to entries (directory
      or file of rows), together with a set of paths whose open or
      creation is refused (permissions), and the text printed on stdout.
    - Python exceptions are the constructor [Exc] of the result of the
      state-and-exception monad [M]; the state at the point of the raise
      is kept, as in Python. *)

From Stdlib Require Import ZArith NArith Ascii String.
From stdpp Require Import base strings gmap list pretty.

Open Scope string_scope.
Set Warnings "-register-all".

(* ------------------------------------------------------------------ *)
(** ** Python values *)

Inductive pyfloat :=
  | FFinite (neg : bool) (m : N) (e : Z)
  | FInf (neg : bool)
  | FNaN.

Inductive pyval :=
  | VInt (z : Z)
  | VFloat (f : pyfloat)
  | VBool (b : bool)
  | VStr (s : string)
  | VNone
  | VList (l : list pyval)
  | VDict (d : list (pyval * pyval)).

(** [d.get(k, default)] for a string key [k]: Python dicts have no
    duplicate keys, the association list is searched front to back; a
    [str] key only equals a [str]. *)
Fixpoint dict_get (d : list (pyval * pyval)) (k : string) (default : pyval)
    : pyval :=
  match d with
  | [] => default
  | (VStr k', v) :: d' => if String.eqb k k' then v else dict_get d' k default
  | _ :: d' => dict_get d' k default
  end.

(** Truthiness, as used by [if self.append_mode] / [not self.append_mode]. *)
Definition py_truthy (v : pyval) : bool :=
  match v with
  | VInt z => negb (Z.eqb z 0)
  | VFloat (FFinite _ m _) => negb (N.eqb m 0)
  | VFloat _ => true
  | VBool b => b
  | VStr s => negb (String.eqb s "")
  | VNone => false
  | VList l => negb (Nat.eqb (length l) 0)
  | VDict d => negb (Nat.eqb (length d) 0)
  end.

(* ------------------------------------------------------------------ *)
(** ** [format(x, ".2f")] *)

(** [float(n)] for an int: round to 53 significant bits, ties to even;
    [None] is the [OverflowError] raised past the float range. *)
Definition int_to_float (z : Z) : option pyfloat :=
  let a := Z.to_N (Z.abs z) in
  let neg := Z.ltb z 0 in
  if N.ltb a (2 ^ 53) then Some (FFinite neg a 0)
  else
    let sh := (N.size a - 53)%N in
    let q := N.shiftr a sh in
    let r := (a mod 2 ^ sh)%N in
    let half := (2 ^ (sh - 1))%N in
    let q' := if N.ltb half r || (N.eqb r half && N.odd q) then (q + 1)%N
              else q in
    if N.leb (2 ^ 1024) (q' * 2 ^ sh) then None
    else Some (FFinite neg q' (Z.of_N sh)).

(** Round [m * 100 * 2^e] to an integer, ties to even: the value in
    hundredths printed by ["%.2f"], which is correctly rounded. *)
Definition hundredths (m : N) (e : Z) : N :=
  if Z.leb 0 e then (m * 100 * 2 ^ Z.to_N e)%N
  else
    let k := Z.to_N (- e) in
    let q := ((m * 100) / 2 ^ k)%N in
    let r := ((m * 100) mod 2 ^ k)%N in
    let den := (2 ^ k)%N in
    if N.ltb den (2 * r) || (N.eqb den (2 * r) && N.odd q) then (q + 1)%N
    else q.

Definition digit_char (d : N) : ascii := pretty_N_char d.

Definition fmt_float2 (f : pyfloat) : string :=
  match f with
  | FFinite neg m e =>
      let h := hundredths m e in
      (if neg then "-" else "") +:+ pretty (h / 100)%N +:+
        String "." (String (digit_char ((h mod 100) / 10))
                     (String (digit_char (h mod 10)) ""))
  | FInf neg => if neg then "-inf" else "inf"
  | FNaN => "nan"
  end.

Inductive exc_kind := IOError | KeyError | ValueError | TypeError
                    | OverflowError | AttributeError.

Record exn := mkExn { exn_kind : exc_kind; exn_msg : string }.

(** [f"{v:.2f}"]: ints (and bools, which are ints) go through [float];
    other types have no ["f"] format code. *)
Definition fmt2 (v : pyval) : exn + string :=
  match v with
  | VFloat f => inr (fmt_float2 f)
  | VInt z =>
      match int_to_float z with
      | Some f => inr (fmt_float2 f)
      | None => inl (mkExn OverflowError "int too large to convert to float")
      end
  | VBool b => inr (fmt_float2 (FFinite false (if b then 1 else 0) 0))
  | VStr _ => inl (mkExn ValueError "Unknown format code 'f' for object of type 'str'")
  | _ => inl (mkExn TypeError "unsupported format string")
  end.

(* ------------------------------------------------------------------ *)
(** ** [str()] and [repr()] *)

Definition hex_char (d : N) : ascii :=
  if N.ltb d 10 then pretty_N_char d
  else ascii_of_N (d - 10 + 97).

(** Escape of one character inside a [repr] of a [str] quoted by [q]. *)
Definition repr_char (q c : ascii) : string :=
  let n := N_of_ascii c in
  if Ascii.eqb c "\"%char then "\\"
  else if Ascii.eqb c q then String "\"%char (String q "")
  else if N.eqb n 9 then "\t"
  else if N.eqb n 10 then "\n"
  else if N.eqb n 13 then "\r"
  else if N.ltb n 32 || N.eqb n 127 || (N.leb 128 n && N.leb n 160) || N.eqb n 173
  then String "\"%char (String "x"%char
         (String (hex_char (n / 16)) (String (hex_char (n mod 16)) "")))
  else String c "".

Fixpoint repr_chars (q : ascii) (s : string) : string :=
  match s with
  | EmptyString => ""
  | String c s' => repr_char q c +:+ repr_chars q s'
  end.

Definition dq : ascii := ascii_of_nat 34.
Definition sq : ascii := "'"%char.

Fixpoint has_char (c : ascii) (s : string) : bool :=
  match s with
  | EmptyString => false
  | String c' s' => Ascii.eqb c c' || has_char c s'
  end.

(** [repr(s)] quotes with ['] unless [s] holds ['] and no double quote. *)
Definition repr_str (s : string) : string :=
  let q := if has_char sq s && negb (has_char dq s) then dq else sq in
  String q (repr_chars q s +:+ String q "").

Fixpoint join (sep : string) (l : list string) : string :=
  match l with
  | [] => ""
  | [x] => x
  | x :: l' => x +:+ sep +:+ join sep l'
  end.

Section Repr.
(** CPython's shortest round-trip [repr] of floats, left as a parameter:
    every statement below holds for any rendering of floats. *)
Variable float_repr : pyfloat -> string.

Fixpoint py_repr (v : pyval) : string :=
  match v with
  | VInt z => pretty z
  | VFloat f => float_repr f
  | VBool b => if b then "True" else "False"
  | VStr s => repr_str s
  | VNone => "None"
  | VList l =>
      "[" +:+ join ", " ((fix go (l : list pyval) : list string :=
                           match l with
                           | [] => []
                           | x :: l' => py_repr x :: go l'
                           end) l) +:+ "]"
  | VDict d =>
      "{" +:+ join ", " ((fix go (d : list (pyval * pyval)) : list string :=
                           match d with
                           | [] => []
                           | (k, x) :: d' => (py_repr k +:+ ": " +:+ py_repr x) :: go d'
                           end) d) +:+ "}"
  end.

(** [str(v)]: the string itself for a [str], [repr] otherwise. *)
Definition py_str (v : pyval) : string :=
  match v with
  | VStr s => s
  | _ => py_repr v
  end.

(** [csv.writer] (excel dialect, QUOTE_MINIMAL): [None] is written as the
    empty field, other cells as [str()]; a field holding the delimiter,
    the quote character or a line break is quoted, quotes doubled; a row
    made of one empty field is written as a quoted empty field. *)
Definition csv_cell (v : pyval) : string :=
  match v with
  | VNone => ""
  | _ => py_str v
  end.

Fixpoint double_quotes (s : string) : string :=
  match s with
  | EmptyString => ""
  | String c s' =>
      if Ascii.eqb c dq then String dq (String dq (double_quotes s'))
      else String c (double_quotes s')
  end.

Definition csv_field (v : pyval) : string :=
  let s := csv_cell v in
  if has_char ","%char s || has_char dq s || has_char (ascii_of_nat 13) s
     || has_char (ascii_of_nat 10) s
  then String dq (double_quotes s +:+ String dq "")
  else s.

Definition crlf : string := String (ascii_of_nat 13) (String (ascii_of_nat 10) "").

Definition csv_line (row : list pyval) : string :=
  match row with
  | [v] => if String.eqb (csv_cell v) "" then String dq (String dq crlf)
           else csv_field v +:+ crlf
  | _ => join "," (map csv_field row) +:+ crlf
  end.

End Repr.

(* ------------------------------------------------------------------ *)
(** ** Filesystem, stdout and the state-and-exception monad *)

Inductive entry :=
  | EDir
  | EFile (rows : list (list pyval)).

Record world := mkWorld {
  w_fs : gmap string entry;      (** path -> directory or file of rows *)
  w_denied : gset string;        (** paths whose open / creation fails *)
  w_out : list string            (** lines printed on stdout *)
}.

Inductive res (A : Type) :=
  | Ok (a : A)
  | Exc (e : exn).
Arguments Ok {A} a.
Arguments Exc {A} e.

Definition M (S A : Type) : Type := S -> res A * S.

Global Instance M_ret S : MRet (M S) := fun A a s => (Ok a, s).
Global Instance M_bind S : MBind (M S) := fun A B k m s =>
  match m s with
  | (Ok a, s') => k a s'
  | (Exc e, s') => (Exc e, s')
  end.

Definition raise {S A} (e : exn) : M S A := fun s => (Exc e, s).

(** [try: body except Exception as e: handler(e)] *)
Definition try_except {S A} (body : M S A) (handler : exn -> M S A) : M S A :=
  fun s => match body s with
           | (Ok a, s') => (Ok a, s')
           | (Exc e, s') => handler e s'
           end.

Definition of_sum {S A} (r : exn + A) : M S A :=
  match r with
  | inl e => raise e
  | inr a => mret a
  end.

Definition set_fs (w : world) (fs : gmap string entry) : world :=
  mkWorld fs (w_denied w) (w_out w).

Definition io_error (msg : string) : exn := mkExn IOError msg.

Definition print (msg : string) : M world unit :=
  fun w => (Ok tt, mkWorld (w_fs w) (w_denied w) (w_out w ++ [msg])).

Definition os_path_exists (p : string) : M world bool :=
  fun w => (Ok (bool_decide (is_Some (w_fs w !! p))), w).

(** [os.makedirs(p)] for a path directly under the working directory. *)
Definition os_makedirs (p : string) : M world unit :=
  fun w =>
    if bool_decide (p ∈ w_denied w) then
      (Exc (io_error ("[Errno 13] Permission denied: " +:+ repr_str p)), w)
    else match w_fs w !! p with
         | Some _ => (Exc (io_error ("[Errno 17] File exists: " +:+ repr_str p)), w)
         | None => (Ok tt, set_fs w (<[p := EDir]> (w_fs w)))
         end.

(** [os.path.join(a, b)] on POSIX, for a relative [a] without trailing
    slash and a relative [b]. *)
Definition path_join (a b : string) : string := a +:+ "/" +:+ b.

Fixpoint split_last_slash (s : string) : option (string * string) :=
  match s with
  | EmptyString => None
  | String c s' =>
      match split_last_slash s' with
      | Some (d, f) => Some (String c d, f)
      | None => if Ascii.eqb c "/"%char then Some ("", s') else None
      end
  end.

Definition dirname (p : string) : string :=
  match split_last_slash p with
  | Some (d, _) => d
  | None => ""
  end.

Definition is_dir (w : world) (d : string) : bool :=
  match w_fs w !! d with
  | Some EDir => true
  | _ => false
  end.

Inductive open_mode := ModeW | ModeA.

(** [open(p, mode, newline='')]: the parent directory must exist, the
    path must not be refused nor be a directory; ['w'] truncates or
    creates, ['a'] keeps the content or creates an empty file. *)
Definition open_file (p : string) (mode : open_mode) : M world unit :=
  fun w =>
    let d := dirname p in
    if negb (String.eqb d "") && negb (is_dir w d) then
      (Exc (io_error ("[Errno 2] No such file or directory: " +:+ repr_str p)), w)
    else if bool_decide (p ∈ w_denied w) then
      (Exc (io_error ("[Errno 13] Permission denied: " +:+ repr_str p)), w)
    else match w_fs w !! p, mode with
         | Some EDir, _ =>
             (Exc (io_error ("[Errno 21] Is a directory: " +:+ repr_str p)), w)
         | Some (EFile _), ModeA => (Ok tt, w)
         | _, _ => (Ok tt, set_fs w (<[p := EFile []]> (w_fs w)))
         end.

(** [writer.writerow(row)] on the file opened at [p]. *)
Definition write_row (p : string) (row : list pyval) : M world unit :=
  fun w =>
    match w_fs w !! p with
    | Some (EFile rows) => (Ok tt, set_fs w (<[p := EFile (rows ++ [row])]> (w_fs w)))
    | _ => (Exc (io_error "I/O operation on closed file."), w)
    end.

(** The content of the file at [p], [None] when there is no file. *)
Definition file_rows (w : world) (p : string) : option (list (list pyval)) :=
  match w_fs w !! p with
  | Some (EFile rows) => Some rows
  | _ => None
  end.

(* ------------------------------------------------------------------ *)
(** ** The [CSVWriter] class *)

Record CSVWriter := mkCSVWriter {
  config : pyval;
  output_dir : string;
  data_file : string;
  hazard_file : string;
  data_path : string;
  hazard_path : string;
  append_mode : pyval;
  write_header_data : bool;
  write_header_hazard : bool
}.

Definition set_write_header_data (self : CSVWriter) (b : bool) : CSVWriter :=
  mkCSVWriter (config self) (output_dir self) (data_file self) (hazard_file self)
    (data_path self) (hazard_path self) (append_mode self) b (write_header_hazard self).

Definition set_write_header_hazard (self : CSVWriter) (b : bool) : CSVWriter :=
  mkCSVWriter (config self) (output_dir self) (data_file self) (hazard_file self)
    (data_path self) (hazard_path self) (append_mode self) (write_header_data self) b.

(** [config["simulation"]]: a missing key raises [KeyError]. *)
Fixpoint dict_lookup (d : list (pyval * pyval)) (k : string) : option pyval :=
  match d with
  | [] => None
  | (VStr k', v) :: d' => if String.eqb k k' then Some v else dict_lookup d' k
  | _ :: d' => dict_lookup d' k
  end.

Definition subscript (v : pyval) (k : string) : M world pyval :=
  match v with
  | VDict d =>
      match dict_lookup d k with
      | Some x => mret x
      | None => raise (mkExn KeyError (repr_str k))
      end
  | _ => raise (mkExn TypeError "object is not subscriptable")
  end.

(** [v.get(k, default)]: only dicts have [get]. *)
Definition get {S} (v : pyval) (k : string) (default : pyval) : M S pyval :=
  match v with
  | VDict d => mret (dict_get d k default)
  | _ => raise (mkExn AttributeError "object has no attribute 'get'")
  end.

(** [CSVWriter.__init__(config)], lines 17-38.  Nothing here is inside a
    [try]: an exception reaches the caller of the constructor. *)
Definition CSVWriter_init (cfg : pyval) : M world CSVWriter :=
  let out := "output_data" in
  let df := "simulation_data.csv" in
  let hf := "hazard_events.csv" in
  ex ← os_path_exists out;
  (if negb ex then os_makedirs out else mret tt);;
  sim ← subscript cfg "simulation";
  am ← get sim "csv_append_mode" (VBool true);
  mret (mkCSVWriter cfg out df hf (path_join out df) (path_join out hf) am true true).

(** The state of a method call: the object and the world. *)
Definition St : Type := CSVWriter * world.

Definition lift {A} (m : M world A) : M St A :=
  fun '(self, w) => let '(r, w') := m w in (r, (self, w')).

Definition get_self : M St CSVWriter := fun s => (Ok (fst s), s).
Definition put_self (self : CSVWriter) : M St unit := fun s => (Ok tt, (self, snd s)).

Definition data_header : list pyval :=
  map VStr ["timestamp"; "step"; "vehicle_id"; "type"; "x"; "y"; "speed";
            "acceleration"; "angle"; "lane_id"; "hazard_active"].

Definition hazard_header : list pyval :=
  map VStr ["timestamp"; "hazard_name"; "metadata"].

(** [CSVWriter.initialize_files()], lines 40-76.  The local [mode] of
    line 48 is unused: both files are opened with ['w']. *)
Definition initialize_files : M St bool :=
  try_except
    (self ← get_self;
     let append := py_truthy (append_mode self) in
     ex_d ← lift (os_path_exists (data_path self));
     (if append && ex_d then put_self (set_write_header_data self false)
      else mret tt);;
     self ← get_self;
     ex_h ← lift (os_path_exists (hazard_path self));
     (if append && ex_h then put_self (set_write_header_hazard self false)
      else mret tt);;
     self ← get_self;
     (if negb append || write_header_data self then
        lift (open_file (data_path self) ModeW;; write_row (data_path self) data_header)
      else mret tt);;
     (if negb append || write_header_hazard self then
        lift (open_file (hazard_path self) ModeW;; write_row (hazard_path self) hazard_header)
      else mret tt);;
     mret true)
    (fun e => lift (print ("Failed to initialize CSV files: " +:+ exn_msg e));;
              mret false).

(** The row of one record, lines 92-104, evaluated left to right. *)
Definition sample_row (timestamp step data : pyval) : M St (list pyval) :=
  vid ← get data "id" (VStr "");
  vty ← get data "type" (VStr "");
  x ← get data "x" (VInt 0);        x ← of_sum (fmt2 x);
  y ← get data "y" (VInt 0);        y ← of_sum (fmt2 y);
  sp ← get data "speed" (VInt 0);   sp ← of_sum (fmt2 sp);
  ac ← get data "acceleration" (VInt 0); ac ← of_sum (fmt2 ac);
  an ← get data "angle" (VInt 0);   an ← of_sum (fmt2 an);
  lane ← get data "lane" (VStr "");
  ha ← get data "hazard_active" (VBool false);
  mret [timestamp; step; vid; vty; VStr x; VStr y; VStr sp; VStr ac; VStr an;
        lane; ha].

Fixpoint write_samples (path : string) (timestamp step : pyval) (l : list pyval)
    : M St unit :=
  match l with
  | [] => mret tt
  | data :: l' =>
      row ← sample_row timestamp step data;
      lift (write_row path row);;
      write_samples path timestamp step l'
  end.

(** [CSVWriter.write_data(sensor_data, simulation_state)], lines 78-106. *)
Definition write_data (sensor_data : list pyval) (simulation_state : pyval)
    : M St unit :=
  match sensor_data with
  | [] => mret tt
  | _ =>
    try_except
      (timestamp ← get simulation_state "simulation_time" (VInt 0);
       step ← get simulation_state "step" (VInt 0);
       self ← get_self;
       lift (open_file (data_path self) ModeA);;
       write_samples (data_path self) timestamp step sensor_data)
      (fun e => lift (print ("Error writing data: " +:+ exn_msg e)))
  end.

Section Events.
Variable float_repr : pyfloat -> string.

(** [CSVWriter.write_hazard_event(hazard_event)], lines 108-121. *)
Definition write_hazard_event (hazard_event : pyval) : M St unit :=
  try_except
    (self ← get_self;
     lift (open_file (hazard_path self) ModeA);;
     ts ← get hazard_event "timestamp" (VInt 0);
     name ← get hazard_event "hazard_name" (VStr "unknown");
     md ← get hazard_event "metadata" (VDict []);
     lift (write_row (hazard_path self) [ts; name; VStr (py_str float_repr md)]))
    (fun e => lift (print ("Error writing hazard event: " +:+ exn_msg e))).

End Events.

(* ------------------------------------------------------------------ *)
(** ** Definitions used by the statements *)

(** The object built by the constructor has these fixed paths. *)
Definition wf_writer (self : CSVWriter) : Prop :=
  output_dir self = "output_data" /\
  data_path self = "output_data/simulation_data.csv" /\
  hazard_path self = "output_data/hazard_events.csv".

(** States reached by the program from a construction, through calls
    of its three methods (nothing else touches the files). *)
Inductive reachable : St -> Prop :=
  | reach_init cfg w self w' :
      CSVWriter_init cfg w = (Ok self, w') -> reachable (self, w')
  | reach_initialize s :
      reachable s -> reachable (snd (initialize_files s))
  | reach_write_data l st s :
      reachable s -> reachable (snd (write_data l st s))
  | reach_write_hazard fr ev s :
      reachable s -> reachable (snd (write_hazard_event fr ev s)).

(** The spec's reading of a record field: its value when present, the
    stated default when the key is missing. *)
Definition field_or (d : list (pyval * pyval)) (k : string) (dflt : pyval) : pyval :=
  match dict_lookup d k with
  | Some v => v
  | None => dflt
  end.

(** The [.2f] cell of a numeric field (its rendering when it has one). *)
Definition fmt_cell (v : pyval) : pyval :=
  match fmt2 v with
  | inr s => VStr s
  | inl _ => VNone
  end.

Definition numeric_keys : list string := ["x"; "y"; "speed"; "acceleration"; "angle"].

(** The row the spec describes for one record under a context. *)
Definition expected_row (timestamp step : pyval) (d : list (pyval * pyval))
    : list pyval :=
  [timestamp; step; field_or d "id" (VStr ""); field_or d "type" (VStr "");
   fmt_cell (field_or d "x" (VInt 0)); fmt_cell (field_or d "y" (VInt 0));
   fmt_cell (field_or d "speed" (VInt 0));
   fmt_cell (field_or d "acceleration" (VInt 0));
   fmt_cell (field_or d "angle" (VInt 0));
   field_or d "lane" (VStr ""); field_or d "hazard_active" (VBool false)].

Definition is_digit (c : ascii) : bool :=
  let n := N_of_ascii c in N.leb 48 n && N.leb n 57.

Fixpoint all_digits (s : string) : bool :=
  match s with
  | EmptyString => true
  | String c s' => is_digit c && all_digits s'
  end.

(** An optional minus sign, a non-empty run of decimal digits, a point
    and exactly two decimal digits. *)
Definition two_decimals (s : string) : Prop :=
  exists sg ip d1 d2,
    s = sg +:+ ip +:+ String "." (String d1 (String d2 "")) /\
    (sg = "" \/ sg = "-") /\ ip <> "" /\ all_digits ip = true /\
    is_digit d1 = true /\ is_digit d2 = true.

(** Numbers with a finite value: ints, bools and finite floats. *)
Definition finite_number (v : pyval) : bool :=
  match v with
  | VInt _ | VBool _ | VFloat (FFinite _ _ _) => true
  | _ => false
  end.

(** The I/O of a file at [p] works: its directory exists, the path is not
    refused and is not a directory. *)
Definition io_ok (w : world) (p : string) : Prop :=
  is_dir w (dirname p) = true /\ (p ∉ w_denied w) /\
  (forall e, w_fs w !! p = Some e -> e <> EDir).

(** Concrete objects: a configuration without [csv_append_mode], the
    object the constructor builds from it, and the world right after the
    construction (only the output directory). *)
Definition ex_cfg : pyval := VDict [(VStr "simulation", VDict [])].

Definition ex_self : CSVWriter :=
  mkCSVWriter ex_cfg "output_data" "simulation_data.csv" "hazard_events.csv"
    "output_data/simulation_data.csv" "output_data/hazard_events.csv"
    (VBool true) true true.

Definition ex_world : world := mkWorld {[ "output_data" := EDir ]} ∅ [].

(** A float [repr] for the examples (no float is printed in them). *)
Definition ex_float_repr (f : pyfloat) : string := "0.0".

(** Every row a file had is still its first rows (no row removed or
    rewritten). *)
Definition keeps_rows (w w' : world) : Prop :=
  forall p rows, file_rows w p = Some rows -> exists more, file_rows w' p = Some (app rows more).

Definition st_keeps_rows (s s' : St) : Prop := keeps_rows (snd s) (snd s').


(** The object's attributes are kept, and a header flag once [False]
    stays [False]. *)
Definition attrs_kept (self self' : CSVWriter) : Prop :=
  config self' = config self /\ output_dir self' = output_dir self /\
  data_file self' = data_file self /\ hazard_file self' = hazard_file self /\
  data_path self' = data_path self /\ hazard_path self' = hazard_path self /\
  append_mode self' = append_mode self /\
  (write_header_data self = false -> write_header_data self' = false) /\
  (write_header_hazard self = false -> write_header_hazard self' = false).

(** An object built with [csv_append_mode] set to [False]. *)
Definition ex_cfg_overwrite : pyval :=
  VDict [(VStr "simulation", VDict [(VStr "csv_append_mode", VBool false)])].

Definition ex_self_overwrite : CSVWriter :=
  mkCSVWriter ex_cfg_overwrite "output_data" "simulation_data.csv" "hazard_events.csv"
    "output_data/simulation_data.csv" "output_data/hazard_events.csv"
    (VBool false) true true.

(** The output directory with both files, each holding one old row. *)
Definition ex_world_files : world :=
  mkWorld (<["output_data/hazard_events.csv" := EFile [[VStr "old"]]]>
             (<["output_data/simulation_data.csv" := EFile [[VStr "old"]]]>
                {[ "output_data" := EDir ]})) ∅ [].

(** The [try] blocks of the three methods, as written in the source
    (the methods are these blocks under their [except] handler). *)

(** Lines 48-73. *)
Definition initialize_files_body : M St bool :=
  self ← get_self;
  let append := py_truthy (append_mode self) in
  ex_d ← lift (os_path_exists (data_path self));
  (if append && ex_d then put_self (set_write_header_data self false)
   else mret tt);;
  self ← get_self;
  ex_h ← lift (os_path_exists (hazard_path self));
  (if append && ex_h then put_self (set_write_header_hazard self false)
   else mret tt);;
  self ← get_self;
  (if negb append || write_header_data self then
     lift (open_file (data_path self) ModeW;; write_row (data_path self) data_header)
   else mret tt);;
  (if negb append || write_header_hazard self then
     lift (open_file (hazard_path self) ModeW;; write_row (hazard_path self) hazard_header)
   else mret tt);;
  mret true.

(** Lines 86-104. *)
Definition write_data_body (sensor_data : list pyval) (simulation_state : pyval)
    : M St unit :=
  timestamp ← get simulation_state "simulation_time" (VInt 0);
  step ← get simulation_state "step" (VInt 0);
  self ← get_self;
  lift (open_file (data_path self) ModeA);;
  write_samples (data_path self) timestamp step sensor_data.

(** Lines 113-119. *)
Definition write_hazard_event_body (float_repr : pyfloat -> string) (hazard_event : pyval)
    : M St unit :=
  self ← get_self;
  lift (open_file (hazard_path self) ModeA);;
  ts ← get hazard_event "timestamp" (VInt 0);
  name ← get hazard_event "hazard_name" (VStr "unknown");
  md ← get hazard_event "metadata" (VDict []);
  lift (write_row (hazard_path self) [ts; name; VStr (py_str float_repr md)]).

(** The state [s] with one more line printed. *)
Definition printed (s : St) (msg : string) : St :=
  (fst s, mkWorld (w_fs (snd s)) (w_denied (snd s)) (app (w_out (snd s)) [msg])).

(* ------------------------------------------------------------------ *)
(** * Proofs *)

(** ** Frame lemmas: a relation between the states before and after a
    call, preserved by every step of the monad. *)
Section Frame.
Variable R : St -> St -> Prop.
Hypothesis R_refl : forall s, R s s.
Hypothesis R_trans : forall s1 s2 s3, R s1 s2 -> R s2 s3 -> R s1 s3.

Definition frame {A} (m : M St A) : Prop := forall s, R s (snd (m s)).

Lemma frame_ret {A} (a : A) : frame (mret a).
Proof. intros s. apply R_refl. Qed.

Lemma frame_raise {A} e : frame (A:=A) (raise e).
Proof. intros s. apply R_refl. Qed.

Lemma frame_of_sum {A} (r : exn + A) : frame (of_sum r).
Proof. destruct r; [apply frame_raise | apply frame_ret]. Qed.

Lemma frame_get v k dflt : frame (get v k dflt).
Proof. destruct v; try apply frame_raise; apply frame_ret. Qed.

Lemma frame_get_self : frame get_self.
Proof. intros s. apply R_refl. Qed.

Lemma frame_bind {A B} (m : M St A) (k : A -> M St B) :
  frame m -> (forall a, frame (k a)) -> frame (m ≫= k).
Proof.
  intros Hm Hk s. unfold mbind, M_bind.
  pose proof (Hm s) as H1. destruct (m s) as [[a|e] s'].
  - eapply R_trans; [exact H1 | apply Hk].
  - exact H1.
Qed.

Lemma frame_try {A} (body : M St A) h :
  frame body -> (forall e, frame (h e)) -> frame (try_except body h).
Proof.
  intros Hb Hh s. unfold try_except.
  pose proof (Hb s) as H1. destruct (body s) as [[a|e] s'].
  - exact H1.
  - eapply R_trans; [exact H1 | apply Hh].
Qed.

Lemma frame_lift {A} (m : M world A) :
  (forall self w, R (self, w) (self, snd (m w))) -> frame (lift m).
Proof.
  intros H [self w]. unfold lift. specialize (H self w).
  destruct (m w) as [r w']. exact H.
Qed.

End Frame.

(** ** The primitives touch one path at most, and remove none. *)

Lemma open_file_other p mode w q :
  q <> p -> w_fs (snd (open_file p mode w)) !! q = w_fs w !! q.
Proof.
  intros Hq. unfold open_file.
  repeat (case_match; simpl; try reflexivity); by rewrite lookup_insert_ne.
Qed.

Lemma write_row_other p row w q :
  q <> p -> w_fs (snd (write_row p row w)) !! q = w_fs w !! q.
Proof.
  intros Hq. unfold write_row.
  repeat (case_match; simpl; try reflexivity); by rewrite lookup_insert_ne.
Qed.

Lemma print_fs m w : w_fs (snd (print m w)) = w_fs w.
Proof. reflexivity. Qed.

Lemma os_path_exists_state p w : snd (os_path_exists p w) = w.
Proof. reflexivity. Qed.

Lemma open_file_grows p mode w q :
  is_Some (w_fs w !! q) -> is_Some (w_fs (snd (open_file p mode w)) !! q).
Proof.
  intros Hq. destruct (decide (q = p)) as [->|Hne].
  - unfold open_file. repeat (case_match; simpl; try done); by rewrite lookup_insert_eq.
  - by rewrite open_file_other.
Qed.

Lemma write_row_grows p row w q :
  is_Some (w_fs w !! q) -> is_Some (w_fs (snd (write_row p row w)) !! q).
Proof.
  intros Hq. destruct (decide (q = p)) as [->|Hne].
  - unfold write_row. repeat (case_match; simpl; try done); by rewrite lookup_insert_eq.
  - by rewrite write_row_other.
Qed.

(** World-level monad steps, for [frame_lift]. *)
Lemma world_bind {A B} (m : M world A) (k : A -> M world B) w :
  snd ((m ≫= k) w) =
  match m w with (Ok a, w') => snd (k a w') | (Exc _, w') => w' end.
Proof. unfold mbind, M_bind. by destruct (m w) as [[a|e] w']. Qed.

(** The relation "same object, files other than [p] unchanged". *)
Definition only_at (p : string) (s s' : St) : Prop :=
  fst s' = fst s /\
  forall q, q <> p -> w_fs (snd s') !! q = w_fs (snd s) !! q.

Lemma only_at_refl p s : only_at p s s.
Proof. split; reflexivity. Qed.

Lemma only_at_trans p s1 s2 s3 :
  only_at p s1 s2 -> only_at p s2 s3 -> only_at p s1 s3.
Proof.
  intros [H1 H1'] [H2 H2']. split; [congruence|].
  intros q Hq. rewrite H2'; [by apply H1'|done].
Qed.

(** The relation "same object, no path removed". *)
Definition grows (s s' : St) : Prop :=
  fst s' = fst s /\
  forall q, is_Some (w_fs (snd s) !! q) -> is_Some (w_fs (snd s') !! q).

Lemma grows_refl s : grows s s.
Proof. split; auto. Qed.

Lemma grows_trans s1 s2 s3 : grows s1 s2 -> grows s2 s3 -> grows s1 s3.
Proof. intros [H1 H1'] [H2 H2']. split; [congruence | auto]. Qed.

(** Steps of the monad that neither read nor write the world. *)
Ltac frame_pure Hrefl Htrans :=
  repeat first
    [ apply (frame_bind _ Htrans); [| intro]
    | apply (frame_try _ Htrans); [| intro]
    | apply (frame_ret _ Hrefl)
    | apply (frame_raise _ Hrefl)
    | apply (frame_of_sum _ Hrefl)
    | apply (frame_get _ Hrefl)
    | apply (frame_get_self _ Hrefl) ].

Lemma sample_row_frame R ts st d :
  (forall s, R s s) -> (forall s1 s2 s3, R s1 s2 -> R s2 s3 -> R s1 s3) ->
  frame R (sample_row ts st d).
Proof. intros Hrefl Htrans. unfold sample_row. frame_pure Hrefl Htrans. Qed.

Lemma write_samples_only_at path ts st l :
  frame (only_at path) (write_samples path ts st l).
Proof.
  induction l as [|d l IH]; simpl.
  - apply frame_ret, only_at_refl.
  - apply (frame_bind _ (only_at_trans path)); [apply sample_row_frame; [apply only_at_refl | apply only_at_trans]|].
    intros row. apply (frame_bind _ (only_at_trans path)); [|intros; exact IH].
    apply frame_lift. intros self w. split; [done|].
    intros q Hq. by apply write_row_other.
Qed.

Lemma write_samples_grows path ts st l :
  frame grows (write_samples path ts st l).
Proof.
  induction l as [|d l IH]; simpl.
  - apply frame_ret, grows_refl.
  - apply (frame_bind _ grows_trans); [apply sample_row_frame; [apply grows_refl | apply grows_trans]|].
    intros row. apply (frame_bind _ grows_trans); [|intros; exact IH].
    apply frame_lift. intros self w. split; [done|].
    intros q Hq. by apply write_row_grows.
Qed.

(** Steps of a call at a given state. *)
Lemma at_bind {A B} (R : St -> St -> Prop) (m : M St A) (k : A -> M St B) s :
  (forall s1 s2 s3, R s1 s2 -> R s2 s3 -> R s1 s3) ->
  R s (snd (m s)) ->
  (forall a s', m s = (Ok a, s') -> R s' (snd (k a s'))) ->
  R s (snd ((m ≫= k) s)).
Proof.
  intros Htrans H1 H2. unfold mbind, M_bind.
  destruct (m s) as [[a|e] s'] eqn:E; [|exact H1].
  eapply Htrans; [exact H1 | by apply H2].
Qed.

Lemma at_try {A} (R : St -> St -> Prop) (body : M St A) h s :
  (forall s1 s2 s3, R s1 s2 -> R s2 s3 -> R s1 s3) ->
  R s (snd (body s)) ->
  (forall e s', body s = (Exc e, s') -> R s' (snd (h e s'))) ->
  R s (snd (try_except body h s)).
Proof.
  intros Htrans H1 H2. unfold try_except.
  destruct (body s) as [[a|e] s'] eqn:E; [exact H1|].
  eapply Htrans; [exact H1 | by apply H2].
Qed.

Lemma get_self_bind {A} (k : CSVWriter -> M St A) s :
  (get_self ≫= k) s = k (fst s) s.
Proof. reflexivity. Qed.

Lemma get_dict_bind {A} (k : pyval -> M St A) d key dflt s :
  (get (VDict d) key dflt ≫= k) s = k (dict_get d key dflt) s.
Proof. reflexivity. Qed.

Lemma get_other_bind {A} (k : pyval -> M St A) v key dflt s :
  (forall d, v <> VDict d) -> snd ((get v key dflt ≫= k) s) = s.
Proof. intros Hv. destruct v; try reflexivity. by destruct (Hv d). Qed.

Lemma lift_print_fs msg s :
  fst (snd (lift (print msg) s)) = fst s /\
  w_fs (snd (snd (lift (print msg) s))) = w_fs (snd s).
Proof. by destruct s. Qed.

Lemma lift_snd {A} (m : M world A) self w :
  snd (lift m (self, w)) = (self, snd (m w)).
Proof. unfold lift. by destruct (m w). Qed.

Lemma write_data_only_at l st self w :
  only_at (data_path self) (self, w) (snd (write_data l st (self, w))).
Proof.
  destruct l as [|d l]; [apply only_at_refl|]. unfold write_data.
  apply at_try; [apply only_at_trans| |].
  - destruct st as [| | | | | |sd];
      try (rewrite get_other_bind by done; apply only_at_refl).
    rewrite !get_dict_bind, get_self_bind. simpl fst.
    apply at_bind; [apply only_at_trans| |].
    + rewrite lift_snd. split; [done|]. intros q Hq. by apply open_file_other.
    + intros _ s' _. apply write_samples_only_at.
  - intros e s' _. destruct (lift_print_fs ("Error writing data: " +:+ exn_msg e) s')
      as [H1 H2]. split; [done|]. intros q _. by rewrite H2.
Qed.

Lemma write_hazard_event_only_at fr ev self w :
  only_at (hazard_path self) (self, w) (snd (write_hazard_event fr ev (self, w))).
Proof.
  unfold write_hazard_event.
  apply at_try; [apply only_at_trans| |].
  - rewrite get_self_bind. simpl fst.
    apply at_bind; [apply only_at_trans| |].
    + rewrite lift_snd. split; [done|]. intros q Hq. by apply open_file_other.
    + intros u [self' w'] Ho.
      assert (self' = self) as ->
        by (unfold lift in Ho; destruct (open_file _ _ w); congruence).
      destruct ev as [| | | | | |d];
        try (rewrite get_other_bind by done; apply only_at_refl).
      rewrite !get_dict_bind, lift_snd. split; [done|].
      intros q Hq. by apply write_row_other.
  - intros e s' _. destruct (lift_print_fs ("Error writing hazard event: " +:+ exn_msg e) s')
      as [H1 H2]. split; [done|]. intros q _. by rewrite H2.
Qed.

Lemma write_data_grows l st s : grows s (snd (write_data l st s)).
Proof.
  destruct s as [self w].
  destruct l as [|d l]; [apply grows_refl|]. unfold write_data.
  apply at_try; [apply grows_trans| |].
  - destruct st as [| | | | | |sd];
      try (rewrite get_other_bind by done; apply grows_refl).
    rewrite !get_dict_bind, get_self_bind. simpl fst.
    apply at_bind; [apply grows_trans| |].
    + rewrite lift_snd. split; [done|]. intros q Hq. by apply open_file_grows.
    + intros _ s' _. apply write_samples_grows.
  - intros e s' _. destruct (lift_print_fs ("Error writing data: " +:+ exn_msg e) s')
      as [H1 H2]. split; [done|]. intros q. by rewrite H2.
Qed.

Lemma write_hazard_event_grows fr ev s : grows s (snd (write_hazard_event fr ev s)).
Proof.
  destruct s as [self w]. unfold write_hazard_event.
  apply at_try; [apply grows_trans| |].
  - rewrite get_self_bind. simpl fst.
    apply at_bind; [apply grows_trans| |].
    + rewrite lift_snd. split; [done|]. intros q Hq. by apply open_file_grows.
    + intros u [self' w'] Ho.
      assert (self' = self) as ->
        by (unfold lift in Ho; destruct (open_file _ _ w); congruence).
      destruct ev as [| | | | | |d];
        try (rewrite get_other_bind by done; apply grows_refl).
      rewrite !get_dict_bind, lift_snd. split; [done|].
      intros q Hq. by apply write_row_grows.
  - intros e s' _. destruct (lift_print_fs ("Error writing hazard event: " +:+ exn_msg e) s')
      as [H1 H2]. split; [done|]. intros q. by rewrite H2.
Qed.

(** ** [initialize_files] in closed form *)

Lemma open_write_header p hdr w :
  (open_file p ModeW ;; write_row p hdr) w =
    (Ok tt, set_fs w (<[p := EFile [hdr]]> (w_fs w))) \/
  exists e, (open_file p ModeW ;; write_row p hdr) w = (Exc e, w).
Proof.
  unfold mbind, M_bind, open_file, write_row, set_fs.
  repeat (case_match; simplify_map_eq/=); eauto.
  all: left; by rewrite insert_insert_eq.
Qed.

Lemma bind_ret {A B} (a : A) (k : A -> M St B) s : (mret a ≫= k) s = k a s.
Proof. reflexivity. Qed.

Lemma bind_put {B} self' (k : unit -> M St B) s :
  (put_self self' ≫= k) s = k tt (self', snd s).
Proof. reflexivity. Qed.

Lemma bind_lift_exists {B} p (k : bool -> M St B) self w :
  (lift (os_path_exists p) ≫= k) (self, w) =
  k (bool_decide (is_Some (w_fs w !! p))) (self, w).
Proof. reflexivity. Qed.

Lemma bind_lift {A B} (m : M world A) (k : A -> M St B) self w :
  (lift m ≫= k) (self, w) =
  match m w with
  | (Ok a, w') => k a (self, w')
  | (Exc e, w') => (Exc e, (self, w'))
  end.
Proof. unfold mbind, M_bind, lift. by destruct (m w) as [[a|e] w']. Qed.

Ltac run_steps :=
  repeat (repeat match goal with
                 | H : ?x = true |- context [?x] => rewrite H
                 | H : ?x = false |- context [?x] => rewrite H
                 end;
          rewrite ?get_self_bind, ?bind_lift_exists, ?bind_ret, ?bind_put;
          cbn [fst snd andb orb negb set_write_header_data set_write_header_hazard
               data_path hazard_path append_mode write_header_data write_header_hazard]).

Lemma initialize_files_cases self w :
  let append := py_truthy (append_mode self) in
  let ed := bool_decide (is_Some (w_fs w !! data_path self)) in
  let eh := bool_decide (is_Some (w_fs w !! hazard_path self)) in
  let self1 := if append && ed then set_write_header_data self false else self in
  let self2 := if append && eh then set_write_header_hazard self1 false else self1 in
  let c1 := negb append || write_header_data self2 in
  let c2 := negb append || write_header_hazard self2 in
  let fs1 := if c1 then <[data_path self := EFile [data_header]]> (w_fs w) else w_fs w in
  let fs2 := if c2 then <[hazard_path self := EFile [hazard_header]]> fs1 else fs1 in
  initialize_files (self, w) = (Ok true, (self2, set_fs w fs2)) \/
  exists e fs',
    initialize_files (self, w) =
      (Ok false, (self2, mkWorld fs' (w_denied w)
                    (w_out w ++ ["Failed to initialize CSV files: " +:+ exn_msg e]))) /\
    (fs' = w_fs w \/ (c1 = true /\ fs' = fs1)).
Proof.
  cbv zeta. unfold initialize_files, try_except. run_steps.
  destruct (py_truthy (append_mode self)) eqn:Ha;
  destruct (bool_decide (is_Some (w_fs w !! data_path self))) eqn:Hd;
  destruct (bool_decide (is_Some (w_fs w !! hazard_path self))) eqn:Hh;
  run_steps;
  destruct (write_header_data self) eqn:Hwd; destruct (write_header_hazard self) eqn:Hwh;
  run_steps;
  repeat (match goal with
          | |- context [ (lift (open_file ?p ModeW ;; write_row ?p ?h) ≫= ?k) (?s, ?w) ] =>
              rewrite (bind_lift _ k s w);
              let E := fresh "E" in let e := fresh "e" in
              destruct (open_write_header p h w) as [E|[e E]]; rewrite E; clear E
          end; run_steps).
  all: unfold mret, M_ret; rewrite ?bind_lift; cbn -[insert].
  all: first [ left; destruct w; reflexivity
             | right; do 2 eexists; split; [reflexivity | tauto] ].
Qed.

(** ** What reachable states satisfy *)

Lemma CSVWriter_init_ok cfg w self w' :
  CSVWriter_init cfg w = (Ok self, w') ->
  wf_writer self /\ write_header_data self = true /\
  write_header_hazard self = true /\
  (forall q, is_Some (w_fs w !! q) -> is_Some (w_fs w' !! q)) /\
  is_Some (w_fs w' !! output_dir self).
Proof.
  unfold CSVWriter_init, mbind, M_bind, os_path_exists, os_makedirs, subscript, get,
    raise, mret, M_ret, set_fs.
  intros H. repeat (case_match; simplify_eq/=);
    repeat split; eauto;
    try (intros q Hq; rewrite lookup_insert_is_Some'; by right);
    try (by rewrite lookup_insert_eq);
    match goal with H : negb (bool_decide _) = false |- _ =>
      apply negb_false_iff, bool_decide_eq_true in H; exact H end.
Qed.

Lemma insert_if_is_Some (c : bool) p (v : entry) (m : gmap string entry) q :
  is_Some (m !! q) -> is_Some ((if c then <[p:=v]> m else m) !! q).
Proof. intros H. destruct c; [rewrite lookup_insert_is_Some'; by right | done]. Qed.

Lemma initialize_files_after self w :
  let append := py_truthy (append_mode self) in
  let ed := bool_decide (is_Some (w_fs w !! data_path self)) in
  let eh := bool_decide (is_Some (w_fs w !! hazard_path self)) in
  let s' := snd (initialize_files (self, w)) in
  fst s' = (if append && eh then set_write_header_hazard
              (if append && ed then set_write_header_data self false else self) false
            else if append && ed then set_write_header_data self false else self) /\
  forall q, is_Some (w_fs w !! q) -> is_Some (w_fs (snd s') !! q).
Proof.
  cbv zeta.
  destruct (initialize_files_cases self w) as [E|[e [fs' [E Hfs]]]]; rewrite E;
    split; try reflexivity; intros q Hq; cbn [snd w_fs set_fs].
  - by do 2 apply insert_if_is_Some.
  - destruct Hfs as [->|[_ ->]]; [done|]. by apply insert_if_is_Some.
Qed.

Lemma reachable_inv s :
  reachable s ->
  wf_writer (fst s) /\
  (write_header_data (fst s) = false -> is_Some (w_fs (snd s) !! data_path (fst s))) /\
  (write_header_hazard (fst s) = false -> is_Some (w_fs (snd s) !! hazard_path (fst s))).
Proof.
  induction 1 as [cfg w self w' Hinit | s Hr IH | l st s Hr IH | fr ev s Hr IH].
  - destruct (CSVWriter_init_ok _ _ _ _ Hinit) as (Hwf & Hd & Hh & _).
    simpl. rewrite Hd, Hh. split; [exact Hwf|]. split; intros; discriminate.
  - destruct s as [self w]. destruct IH as (Hwf & Hd & Hh).
    destruct (initialize_files_after self w) as [Hself Hgrow]. rewrite Hself.
    destruct (py_truthy (append_mode self)) eqn:Ha;
    destruct (bool_decide (is_Some (w_fs w !! data_path self))) eqn:Ed;
    destruct (bool_decide (is_Some (w_fs w !! hazard_path self))) eqn:Eh;
    simpl in *; (split; [exact Hwf|]); split; intros Hf; apply Hgrow;
    first [ by apply bool_decide_eq_true in Ed | by apply bool_decide_eq_true in Eh
          | by apply Hd | by apply Hh ].
  - destruct (write_data_grows l st s) as [Hself Hgrow].
    destruct IH as (Hwf & Hd & Hh). rewrite Hself.
    split; [exact Hwf|]. split; intros Hf; apply Hgrow; auto.
  - destruct (write_hazard_event_grows fr ev s) as [Hself Hgrow].
    destruct IH as (Hwf & Hd & Hh). rewrite Hself.
    split; [exact Hwf|]. split; intros Hf; apply Hgrow; auto.
Qed.

(** ** C2 *)

(** C2: in every state the program can reach, a successful
    [initialize_files] call writes the header of a destination exactly
    when it is needed, i.e. when append mode is off or the file does not
    exist yet: the file is then truncated to the header row alone, even
    when it existed before; otherwise the file is left as it was. *)
Theorem initialize_files_header_when_needed self w self' w' :
  reachable (self, w) ->
  initialize_files (self, w) = (Ok true, (self', w')) ->
  let needed p := negb (py_truthy (append_mode self))
                  || negb (bool_decide (is_Some (w_fs w !! p))) in
  (needed (data_path self) = true ->
     file_rows w' (data_path self) = Some [data_header]) /\
  (needed (data_path self) = false ->
     w_fs w' !! data_path self = w_fs w !! data_path self) /\
  (needed (hazard_path self) = true ->
     file_rows w' (hazard_path self) = Some [hazard_header]) /\
  (needed (hazard_path self) = false ->
     w_fs w' !! hazard_path self = w_fs w !! hazard_path self).
Proof.
  intros Hr Hinit needed. subst needed. cbv beta.
  destruct (reachable_inv _ Hr) as ((Hod & Hdp & Hhp) & Hd & Hh). cbn [fst snd] in Hod, Hdp, Hhp, Hd, Hh.
  destruct (initialize_files_cases self w) as [E|[e [fs' [E _]]]];
    rewrite E in Hinit; [|discriminate]. clear E. injection Hinit as <- <-.
  unfold file_rows. cbn [w_fs set_fs].
  rewrite Hdp in Hd |- *. rewrite Hhp in Hh |- *.
  destruct (py_truthy (append_mode self)) eqn:Ha;
  destruct (bool_decide (is_Some (w_fs w !! "output_data/simulation_data.csv"))) eqn:Ed;
  destruct (bool_decide (is_Some (w_fs w !! "output_data/hazard_events.csv"))) eqn:Eh;
  destruct (write_header_data self) eqn:Hwd; destruct (write_header_hazard self) eqn:Hwh;
  try (apply bool_decide_eq_false in Ed; exfalso; by apply Ed, Hd);
  try (apply bool_decide_eq_false in Eh; exfalso; by apply Eh, Hh);
  cbn; rewrite ?Hwd, ?Hwh; repeat split; intros; try discriminate;
  simplify_map_eq; try done.
Qed.

(** ** C3 *)

Lemma ne_of_absent (m : gmap string entry) p q :
  bool_decide (is_Some (m !! q)) = false -> is_Some (m !! p) -> q <> p.
Proof. intros Hq Hp ->. apply bool_decide_eq_false in Hq. by apply Hq. Qed.

(** In append mode [initialize_files] leaves every existing path as it
    was: a header is only ever written to a file absent at the call. *)
Lemma initialize_files_append_keeps self w :
  py_truthy (append_mode self) = true ->
  forall p, is_Some (w_fs w !! p) ->
  w_fs (snd (snd (initialize_files (self, w)))) !! p = w_fs w !! p.
Proof.
  intros Ha p Hp.
  destruct (initialize_files_cases self w) as [E|[e [fs' [E Hfs]]]]; rewrite E; clear E;
    cbn [snd w_fs set_fs]; rewrite Ha in *; cbn [andb orb negb] in *.
  - destruct (bool_decide (is_Some (w_fs w !! data_path self))) eqn:Ed;
    destruct (bool_decide (is_Some (w_fs w !! hazard_path self))) eqn:Eh;
    cbn; destruct (write_header_data self), (write_header_hazard self);
    rewrite ?lookup_insert_ne by (eapply ne_of_absent; eauto); done.
  - destruct Hfs as [->|[Hc ->]]; [done|].
    destruct (bool_decide (is_Some (w_fs w !! data_path self))) eqn:Ed;
    destruct (bool_decide (is_Some (w_fs w !! hazard_path self))) eqn:Eh;
    cbn in *; destruct (write_header_data self), (write_header_hazard self);
    rewrite ?lookup_insert_ne by (eapply ne_of_absent; eauto); done.
Qed.

Lemma initialize_files_keeps_mode self w :
  append_mode (fst (snd (initialize_files (self, w)))) = append_mode self.
Proof.
  destruct (initialize_files_after self w) as [-> _]. by repeat case_match.
Qed.

(** C3: in append mode, calling [initialize_files] twice does not
    duplicate header rows: the first call leaves every existing file
    untouched (a header only goes to a file that did not exist), and the
    second call leaves every file present after the first unchanged. *)
Theorem initialize_files_twice_no_duplicate_header self w :
  py_truthy (append_mode self) = true ->
  let s1 := snd (initialize_files (self, w)) in
  let s2 := snd (initialize_files s1) in
  (forall p, is_Some (w_fs w !! p) -> w_fs (snd s1) !! p = w_fs w !! p) /\
  (forall p, is_Some (w_fs (snd s1) !! p) -> w_fs (snd s2) !! p = w_fs (snd s1) !! p).
Proof.
  intros Ha s1 s2. split.
  - by apply initialize_files_append_keeps.
  - subst s2 s1. pose proof (initialize_files_keeps_mode self w) as Hm.
    destruct (snd (initialize_files (self, w))) as [self1 w1]. cbn in Hm |- *.
    apply initialize_files_append_keeps. by rewrite Hm.
Qed.

(** ** C1 *)

(** [initialize_files] changes no path but the two files. *)
Lemma initialize_files_other self w q :
  q <> data_path self -> q <> hazard_path self ->
  w_fs (snd (snd (initialize_files (self, w)))) !! q = w_fs w !! q.
Proof.
  intros Hd Hh.
  destruct (initialize_files_cases self w) as [E|[e [fs' [E Hfs]]]]; rewrite E; clear E;
    cbn [snd w_fs set_fs].
  - repeat case_match; by rewrite ?lookup_insert_ne by congruence.
  - destruct Hfs as [->|[_ ->]]; [done|].
    case_match; by rewrite ?lookup_insert_ne by congruence.
Qed.

Lemma open_file_no_dir p mode w :
  dirname p <> "" -> is_dir w (dirname p) = false ->
  exists e, open_file p mode w = (Exc e, w) /\ exn_kind e = IOError.
Proof.
  intros Hd Hnd. unfold open_file. cbv zeta. rewrite Hnd.
  rewrite (proj2 (String.eqb_neq _ _) Hd). cbn. by eexists.
Qed.

Lemma bind_exc {S A B} (m : M S A) (k : A -> M S B) s e s' :
  m s = (Exc e, s') -> (m ≫= k) s = (Exc e, s').
Proof. intros H. unfold mbind, M_bind. by rewrite H. Qed.

(** With the output directory missing (and so both files), [initialize_files]
    creates nothing: in append mode with both header flags already off
    it opens nothing and returns [True]; otherwise its first open fails
    and it prints the [IOError] and returns [False]. *)
Lemma initialize_files_missing_dir self w :
  wf_writer self -> is_dir w "output_data" = false ->
  w_fs w !! data_path self = None -> w_fs w !! hazard_path self = None ->
  let opens_none := py_truthy (append_mode self) && negb (write_header_data self)
                    && negb (write_header_hazard self) in
  (opens_none = true -> initialize_files (self, w) = (Ok true, (self, w))) /\
  (opens_none = false -> exists e, exn_kind e = IOError /\
     initialize_files (self, w) =
       (Ok false, (self, mkWorld (w_fs w) (w_denied w)
                           (app (w_out w) ["Failed to initialize CSV files: " +:+ exn_msg e])))).
Proof.
  intros (Ho & Hdp & Hhp) Hnd Hd Hh. cbv zeta.
  assert (Dd : dirname (data_path self) = "output_data") by (rewrite Hdp; reflexivity).
  assert (Dh : dirname (hazard_path self) = "output_data") by (rewrite Hhp; reflexivity).
  assert (Ed : bool_decide (is_Some (w_fs w !! data_path self)) = false)
    by (rewrite Hd; apply bool_decide_eq_false_2; intros [? ?]; discriminate).
  assert (Eh : bool_decide (is_Some (w_fs w !! hazard_path self)) = false)
    by (rewrite Hh; apply bool_decide_eq_false_2; intros [? ?]; discriminate).
  unfold initialize_files, try_except. run_steps.
  destruct (py_truthy (append_mode self)) eqn:Ha;
  destruct (write_header_data self) eqn:Hwd; destruct (write_header_hazard self) eqn:Hwh;
  run_steps; split; intros Hb; try discriminate.
  all: try (unfold mret, M_ret; reflexivity).
  all: rewrite ?bind_ret.
  all: rewrite bind_lift.
  all: match goal with
       | |- context [open_file ?p ModeW] =>
           destruct (open_file_no_dir p ModeW w) as (e & E & Hk);
             [by rewrite ?Dd, ?Dh | by rewrite ?Dd, ?Dh|]
       end.
  all: rewrite (bind_exc _ _ _ _ _ E); exists e; split; [done | reflexivity].
Qed.

(** C1 (amended): the output directory is ensured by the constructor,
    which creates it when no entry of that name exists; [initialize_files]
    itself never creates nor changes that entry.  When the directory is
    missing (and so are the two files) as [initialize_files] runs: in
    append mode with both header flags already off it opens nothing and
    returns [True], leaving everything as it was; otherwise its first
    open fails, it prints the error and returns [False], with no path
    changed. *)
Theorem output_dir_made_by_constructor_only :
  (forall cfg w self w',
     CSVWriter_init cfg w = (Ok self, w') -> is_Some (w_fs w' !! output_dir self)) /\
  (forall self w,
     wf_writer self ->
     w_fs (snd (snd (initialize_files (self, w)))) !! output_dir self =
     w_fs w !! output_dir self) /\
  (forall self w,
     wf_writer self -> w_fs w !! output_dir self = None ->
     w_fs w !! data_path self = None -> w_fs w !! hazard_path self = None ->
     (py_truthy (append_mode self) && negb (write_header_data self)
        && negb (write_header_hazard self) = true ->
      initialize_files (self, w) = (Ok true, (self, w))) /\
     (py_truthy (append_mode self) && negb (write_header_data self)
        && negb (write_header_hazard self) = false ->
      exists e, exn_kind e = IOError /\
        initialize_files (self, w) =
          (Ok false, (self, mkWorld (w_fs w) (w_denied w)
                              (app (w_out w) ["Failed to initialize CSV files: " +:+ exn_msg e]))))).
Proof.
  split; [|split].
  - intros cfg w self w' H. apply (CSVWriter_init_ok _ _ _ _ H).
  - intros self w (Hod & Hdp & Hhp). apply initialize_files_other; congruence.
  - intros self w Hwf Habs Hd Hh. apply initialize_files_missing_dir; auto.
    unfold is_dir. destruct Hwf as (Ho & _). rewrite <- Ho, Habs. reflexivity.
Qed.

(** C1 counterexample: an object built by the constructor, whose
    directory is gone when [initialize_files] runs: the call returns
    [False] and the directory is still missing. *)
Lemma initialize_files_does_not_make_dir :
  let cfg := VDict [(VStr "simulation", VDict [(VStr "csv_append_mode", VBool false)])] in
  let self := mkCSVWriter cfg "output_data" "simulation_data.csv" "hazard_events.csv"
                "output_data/simulation_data.csv" "output_data/hazard_events.csv"
                (VBool false) true true in
  let w0 := mkWorld ∅ ∅ [] in
  fst (CSVWriter_init cfg w0) = Ok self /\
  fst (initialize_files (self, w0)) = Ok false /\
  w_fs (snd (snd (initialize_files (self, w0)))) !! "output_data" = None.
Proof. vm_compute. repeat split; reflexivity. Qed.

(** ** C4 *)

(** C4: [write_data] with an empty list of records returns normally and
    leaves the whole state (files, object, output) unchanged. *)
Theorem write_data_empty_noop st s :
  write_data [] st s = (Ok tt, s).
Proof. reflexivity. Qed.

(** ** C10 *)

(** C10: [write_data] changes no path but the samples file, and
    [write_hazard_event] none but the events file; in particular each
    leaves the other destination unchanged. *)
Theorem write_destinations_disjoint fr l st ev self w :
  wf_writer self ->
  (forall q, q <> data_path self ->
     w_fs (snd (snd (write_data l st (self, w)))) !! q = w_fs w !! q) /\
  w_fs (snd (snd (write_data l st (self, w)))) !! hazard_path self =
    w_fs w !! hazard_path self /\
  (forall q, q <> hazard_path self ->
     w_fs (snd (snd (write_hazard_event fr ev (self, w)))) !! q = w_fs w !! q) /\
  w_fs (snd (snd (write_hazard_event fr ev (self, w)))) !! data_path self =
    w_fs w !! data_path self.
Proof.
  intros (_ & Hdp & Hhp).
  destruct (write_data_only_at l st self w) as [_ Hd].
  destruct (write_hazard_event_only_at fr ev self w) as [_ Hh].
  repeat split.
  - exact Hd.
  - apply Hd. congruence.
  - exact Hh.
  - apply Hh. congruence.
Qed.

(** ** C9 *)

(** C9: when the [simulation] section of the configuration has no
    [csv_append_mode] key, the constructed object has
    [append_mode = True]. *)
Theorem append_mode_default_true d sd w self w' :
  dict_lookup d "simulation" = Some (VDict sd) ->
  dict_lookup sd "csv_append_mode" = None ->
  CSVWriter_init (VDict d) w = (Ok self, w') ->
  append_mode self = VBool true.
Proof.
  intros Hs Hk. unfold CSVWriter_init, mbind, M_bind, subscript, get, os_path_exists,
    mret, M_ret. rewrite Hs. cbn.
  assert (Hg : dict_get sd "csv_append_mode" (VBool true) = VBool true).
  { clear Hs. induction sd as [|[k v] sd IH]; cbn [dict_lookup dict_get] in *; [done|].
    destruct k; auto. destruct (String.eqb "csv_append_mode" s); [discriminate | auto]. }
  rewrite Hg. repeat case_match; intros; simplify_eq/=; done.
Qed.

(** ** C5 *)

Lemma is_digit_pretty_N_char n : is_digit (pretty_N_char n) = true.
Proof. unfold pretty_N_char. repeat case_match; reflexivity. Qed.

Lemma all_digits_pretty_N_go x s :
  all_digits s = true -> all_digits (pretty_N_go x s) = true.
Proof.
  revert s. induction (N.lt_wf_0 x) as [x _ IH]; intros s Hs.
  destruct (decide (x = 0)%N) as [->|Hx]; [by rewrite pretty_N_go_0|].
  rewrite pretty_N_go_step by lia. apply IH; [apply N.div_lt; lia|].
  cbn [all_digits]. by rewrite is_digit_pretty_N_char, Hs.
Qed.

Lemma pretty_N_go_nonempty x s : s <> "" -> pretty_N_go x s <> "".
Proof.
  revert s. induction (N.lt_wf_0 x) as [x _ IH]; intros s Hs.
  destruct (decide (x = 0)%N) as [->|Hx]; [by rewrite pretty_N_go_0|].
  rewrite pretty_N_go_step by lia. apply IH; [apply N.div_lt; lia | done].
Qed.

Lemma pretty_N_digits (n : N) : pretty n <> "" /\ all_digits (pretty n) = true.
Proof.
  unfold pretty, pretty_N. case_decide; [done|]. split.
  - rewrite pretty_N_go_step by lia. by apply pretty_N_go_nonempty.
  - by apply all_digits_pretty_N_go.
Qed.

Lemma fmt_float2_finite neg m e : two_decimals (fmt_float2 (FFinite neg m e)).
Proof.
  cbn [fmt_float2]. destruct (pretty_N_digits (hundredths m e / 100)) as [Hne Hd].
  eexists _, _, _, _. split; [reflexivity|].
  split; [destruct neg; auto|]. unfold digit_char.
  by rewrite !is_digit_pretty_N_char.
Qed.

Lemma fmt2_finite_two_decimals v s :
  finite_number v = true -> fmt2 v = inr s -> two_decimals s.
Proof.
  destruct v as [z|[]|b| | | |]; cbn [fmt2 finite_number]; try discriminate; intros _ H.
  - destruct (int_to_float z) as [f|] eqn:Hf; [|discriminate]. injection H as <-.
    unfold int_to_float in Hf. repeat case_match; simplify_eq; apply fmt_float2_finite.
  - injection H as <-. apply fmt_float2_finite.
  - injection H as <-. exact (fmt_float2_finite false (if b then 1%N else 0%N) 0).
Qed.

Lemma dict_get_field_or d k dflt : dict_get d k dflt = field_or d k dflt.
Proof.
  unfold field_or. induction d as [|[kk v] d IH]; cbn [dict_get dict_lookup]; [done|].
  destruct kk; auto. destruct (String.eqb k s); auto.
Qed.

Lemma bind_of_sum_inr {A B} (a : A) (k : A -> M St B) s :
  (of_sum (inr a) ≫= k) s = k a s.
Proof. reflexivity. Qed.

Lemma bind_of_sum_inl {A B} e (k : A -> M St B) s :
  (of_sum (inl e) ≫= k) s = (Exc e, s).
Proof. reflexivity. Qed.

Lemma sample_row_ok ts st d s row s' :
  sample_row ts st (VDict d) s = (Ok row, s') ->
  row = expected_row ts st d /\ s' = s /\
  forall k, In k numeric_keys -> exists str, fmt2 (field_or d k (VInt 0)) = inr str.
Proof.
  unfold sample_row, expected_row, fmt_cell.
  repeat (rewrite ?get_dict_bind, ?dict_get_field_or; cbv beta).
  destruct (fmt2 (field_or d "x" (VInt 0))) as [e|x] eqn:Hx;
    rewrite ?bind_of_sum_inl, ?bind_of_sum_inr; [discriminate|];
    repeat (rewrite ?get_dict_bind, ?dict_get_field_or; cbv beta).
  destruct (fmt2 (field_or d "y" (VInt 0))) as [e|y] eqn:Hy;
    rewrite ?bind_of_sum_inl, ?bind_of_sum_inr; [discriminate|];
    repeat (rewrite ?get_dict_bind, ?dict_get_field_or; cbv beta).
  destruct (fmt2 (field_or d "speed" (VInt 0))) as [e|sp] eqn:Hsp;
    rewrite ?bind_of_sum_inl, ?bind_of_sum_inr; [discriminate|];
    repeat (rewrite ?get_dict_bind, ?dict_get_field_or; cbv beta).
  destruct (fmt2 (field_or d "acceleration" (VInt 0))) as [e|ac] eqn:Hac;
    rewrite ?bind_of_sum_inl, ?bind_of_sum_inr; [discriminate|];
    repeat (rewrite ?get_dict_bind, ?dict_get_field_or; cbv beta).
  destruct (fmt2 (field_or d "angle" (VInt 0))) as [e|an] eqn:Han;
    rewrite ?bind_of_sum_inl, ?bind_of_sum_inr; [discriminate|];
    repeat (rewrite ?get_dict_bind, ?dict_get_field_or; cbv beta).
  intros H. injection H as <- <-. split; [reflexivity|]. split; [reflexivity|].
  intros k Hk. cbn in Hk. decompose [or False] Hk; subst; eauto.
Qed.

Lemma sample_row_spec ts st d s :
  (forall k, In k numeric_keys -> exists str, fmt2 (field_or d k (VInt 0)) = inr str) ->
  sample_row ts st (VDict d) s = (Ok (expected_row ts st d), s).
Proof.
  intros Hf.
  destruct (Hf "x") as [x Hx]; [cbn; tauto|].
  destruct (Hf "y") as [y Hy]; [cbn; tauto|].
  destruct (Hf "speed") as [sp Hsp]; [cbn; tauto|].
  destruct (Hf "acceleration") as [ac Hac]; [cbn; tauto|].
  destruct (Hf "angle") as [an Han]; [cbn; tauto|].
  unfold sample_row, expected_row, fmt_cell.
  repeat (rewrite ?get_dict_bind, ?dict_get_field_or, ?Hx, ?Hy, ?Hsp, ?Hac, ?Han,
            ?bind_of_sum_inr; cbv beta).
  reflexivity.
Qed.

(** C5 (amended): in every row built for a record, each of the fields
    [x], [y], [speed], [acceleration], [angle] whose value (0 when the key
    is missing) is an int, a bool or a finite float is rendered as an
    optional minus sign, the integer digits, a point and exactly two
    decimal digits; a float infinity renders as [inf] / [-inf] and a float
    NaN as [nan]. *)
Theorem sample_row_two_decimals ts st d s row s' :
  sample_row ts st (VDict d) s = (Ok row, s') ->
  Forall2 (fun k c => finite_number (field_or d k (VInt 0)) = true ->
                      exists str, c = VStr str /\ two_decimals str)
          numeric_keys (take 5 (drop 4 row)) /\
  fmt2 (VInt 5) = inr "5.00" /\
  (forall neg, fmt2 (VFloat (FInf neg)) = inr (if neg then "-inf" else "inf")) /\
  fmt2 (VFloat FNaN) = inr "nan".
Proof.
  intros H. destruct (sample_row_ok _ _ _ _ _ _ H) as (-> & _ & Hf).
  split; [|split; [reflexivity|split; [intros []; reflexivity | reflexivity]]].
  unfold expected_row. cbn [take drop numeric_keys].
  assert (Hk : forall k, In k numeric_keys ->
            finite_number (field_or d k (VInt 0)) = true ->
            exists str, fmt_cell (field_or d k (VInt 0)) = VStr str /\ two_decimals str).
  { intros k Hin Hfin. destruct (Hf k Hin) as [str Hs]. exists str.
    unfold fmt_cell. rewrite Hs. split; [done|]. by eapply fmt2_finite_two_decimals. }
  repeat constructor; apply Hk; cbn; tauto.
Qed.

Lemma string_length_app a b : String.length (a +:+ b) = String.length a + String.length b.
Proof.
  induction a as [|c a IH]; [reflexivity|].
  change (S (String.length (a +:+ b)) = S (String.length a + String.length b)).
  by rewrite IH.
Qed.

Lemma nan_not_two_decimals : ~ two_decimals "nan".
Proof.
  intros (sg & ip & d1 & d2 & E & _ & Hip & _).
  apply (f_equal String.length) in E. rewrite !string_length_app in E. cbn in E.
  destruct ip; [done|]. cbn in E. lia.
Qed.

(** C5 counterexample: a record whose [speed] is the float NaN is written
    with the cell [nan] in the speed column, which has no decimal digits. *)
Lemma write_data_nan_speed :
  let cfg := VDict [(VStr "simulation", VDict [(VStr "csv_append_mode", VBool true)])] in
  let self := mkCSVWriter cfg "output_data" "simulation_data.csv" "hazard_events.csv"
                "output_data/simulation_data.csv" "output_data/hazard_events.csv"
                (VBool true) true true in
  let w0 := mkWorld {[ "output_data" := EDir ]} ∅ [] in
  fst (CSVWriter_init cfg w0) = Ok self /\
  fst (write_data [VDict [(VStr "speed", VFloat FNaN)]] (VDict []) (self, w0)) = Ok tt /\
  file_rows (snd (snd (write_data [VDict [(VStr "speed", VFloat FNaN)]] (VDict []) (self, w0))))
            "output_data/simulation_data.csv" =
    Some [[VInt 0; VInt 0; VStr ""; VStr ""; VStr "0.00"; VStr "0.00"; VStr "nan";
           VStr "0.00"; VStr "0.00"; VStr ""; VBool false]] /\
  ~ two_decimals "nan".
Proof.
  cbv zeta. split; [vm_compute; reflexivity|]. split; [vm_compute; reflexivity|].
  split; [vm_compute; reflexivity|]. exact nan_not_two_decimals.
Qed.

(** ** C6 *)

Lemma bind_ok {S A B} (m : M S A) (k : A -> M S B) s a s' :
  m s = (Ok a, s') -> (m ≫= k) s = k a s'.
Proof. intros H. unfold mbind, M_bind. by rewrite H. Qed.

Lemma open_file_append_ok w p :
  io_ok w p ->
  open_file p ModeA w =
    (Ok tt, set_fs w (<[p := EFile (default [] (file_rows w p))]> (w_fs w))).
Proof.
  intros (Hd & Hden & Hnd). unfold open_file. cbv zeta. rewrite Hd, andb_false_r.
  rewrite bool_decide_eq_false_2 by done. unfold file_rows.
  destruct (w_fs w !! p) as [[|rows]|] eqn:E.
  - by destruct (Hnd EDir).
  - unfold set_fs. rewrite insert_id by done. by destruct w.
  - reflexivity.
Qed.

Lemma write_row_ok w p rows row :
  w_fs w !! p = Some (EFile rows) ->
  write_row p row w = (Ok tt, set_fs w (<[p := EFile (rows ++ [row])]> (w_fs w))).
Proof. intros H. unfold write_row. by rewrite H. Qed.

(** Every numeric field of the record has a [.2f] rendering. *)
Definition numeric_ok (d : list (pyval * pyval)) : Prop :=
  forall k, In k numeric_keys -> exists str, fmt2 (field_or d k (VInt 0)) = inr str.

Lemma write_samples_spec p ts st ds self w old :
  w_fs w !! p = Some (EFile old) ->
  Forall numeric_ok ds ->
  write_samples p ts st (map VDict ds) (self, w) =
    (Ok tt, (self, set_fs w (<[p := EFile (old ++ map (expected_row ts st) ds)]> (w_fs w)))).
Proof.
  induction ds as [|d ds IH] in w, old |- *; intros Hp Hall.
  - cbn [map]. rewrite app_nil_r, insert_id by done. by destruct w.
  - inversion Hall as [|? ? Hd Hds]; subst.
    cbn [map write_samples].
    rewrite (bind_ok _ _ _ _ _ (sample_row_spec ts st d (self, w) Hd)).
    rewrite bind_lift, (write_row_ok _ _ _ _ Hp).
    set (w1 := set_fs w (<[p := EFile (old ++ [expected_row ts st d])]> (w_fs w))).
    rewrite (IH w1 (old ++ [expected_row ts st d])%list); [|by unfold w1, set_fs; cbn; rewrite lookup_insert_eq|done].
    unfold w1.
    unfold set_fs; cbn. by rewrite insert_insert_eq, <- app_assoc.
Qed.

(** C6: when the samples file can be opened for appending and every
    numeric field of every record has a [.2f] rendering, [write_data] on a
    non-empty list of records appends to the samples file exactly one row
    per record, in list order, each row starting with the context's
    [simulation_time] and [step] (0 when absent); a record's missing
    fields default to the empty string ([id], [type], [lane]), to 0
    rendered as [0.00] ([x], [y], [speed], [acceleration], [angle]) and to
    [False] ([hazard_active]).  Nothing else changes. *)
Theorem write_data_appends_rows ds sd self w :
  io_ok w (data_path self) -> ds <> [] -> Forall numeric_ok ds ->
  write_data (map VDict ds) (VDict sd) (self, w) =
    (Ok tt, (self, set_fs w (<[data_path self :=
       EFile (default [] (file_rows w (data_path self)) ++
              map (expected_row (field_or sd "simulation_time" (VInt 0))
                                (field_or sd "step" (VInt 0))) ds)]> (w_fs w)))) /\
  expected_row (field_or sd "simulation_time" (VInt 0)) (field_or sd "step" (VInt 0)) [] =
    [field_or sd "simulation_time" (VInt 0); field_or sd "step" (VInt 0);
     VStr ""; VStr ""; VStr "0.00"; VStr "0.00"; VStr "0.00"; VStr "0.00";
     VStr "0.00"; VStr ""; VBool false].
Proof.
  intros Hio Hne Hall. split; [|reflexivity].
  destruct ds as [|d ds']; [done|].
  unfold write_data. cbn [map]. unfold try_except.
  rewrite get_dict_bind, dict_get_field_or. cbv beta.
  rewrite get_dict_bind, dict_get_field_or. cbv beta.
  rewrite get_self_bind. cbn [fst].
  rewrite bind_lift, (open_file_append_ok _ _ Hio). cbv beta iota.
  change (VDict d :: map VDict ds') with (map VDict (d :: ds')).
  rewrite (write_samples_spec _ _ _ _ _ _ (default [] (file_rows w (data_path self))));
    [|by unfold set_fs; cbn; rewrite lookup_insert_eq|done].
  unfold set_fs; cbn. by rewrite insert_insert_eq.
Qed.

(** ** C7 *)

(** C7: when the events file can be opened for appending,
    [write_hazard_event] on a dict appends to it exactly one row: the
    event's [timestamp] (0 when absent), its [hazard_name] ([unknown] when
    absent) and [str()] of its [metadata] ([{}] when absent); nothing else
    changes.  An event named [pothole] with timestamp 12 and empty
    metadata gives the row [12, 'pothole', '{}'], written as the line
    [12,pothole,{}]. *)
Theorem write_hazard_event_appends_row fr ev self w :
  io_ok w (hazard_path self) ->
  write_hazard_event fr (VDict ev) (self, w) =
    (Ok tt, (self, set_fs w (<[hazard_path self :=
       EFile (default [] (file_rows w (hazard_path self)) ++
              [[field_or ev "timestamp" (VInt 0);
                field_or ev "hazard_name" (VStr "unknown");
                VStr (py_str fr (field_or ev "metadata" (VDict [])))]])]> (w_fs w)))) /\
  (let pothole := [(VStr "hazard_name", VStr "pothole"); (VStr "timestamp", VInt 12);
                   (VStr "metadata", VDict [])] in
   [field_or pothole "timestamp" (VInt 0);
    field_or pothole "hazard_name" (VStr "unknown");
    VStr (py_str fr (field_or pothole "metadata" (VDict [])))] =
     [VInt 12; VStr "pothole"; VStr "{}"] /\
   csv_line fr [VInt 12; VStr "pothole"; VStr "{}"] = "12,pothole,{}" +:+ crlf).
Proof.
  intros Hio. split; [|split; reflexivity].
  unfold write_hazard_event, try_except.
  rewrite get_self_bind. cbn [fst].
  rewrite bind_lift, (open_file_append_ok _ _ Hio). cbv beta iota.
  repeat (rewrite ?get_dict_bind, ?dict_get_field_or; cbv beta).
  unfold lift.
  rewrite (write_row_ok _ _ (default [] (file_rows w (hazard_path self))));
    [|by unfold set_fs; cbn; rewrite lookup_insert_eq].
  unfold set_fs; cbn. by rewrite insert_insert_eq.
Qed.

(** ** C8 *)

(** The relation "nothing printed". *)
Definition same_out (s s' : St) : Prop := w_out (snd s') = w_out (snd s).

Lemma same_out_refl s : same_out s s.
Proof. reflexivity. Qed.

Lemma same_out_trans s1 s2 s3 : same_out s1 s2 -> same_out s2 s3 -> same_out s1 s3.
Proof. unfold same_out. congruence. Qed.

Lemma open_file_out p mode w : w_out (snd (open_file p mode w)) = w_out w.
Proof. unfold open_file. by repeat case_match. Qed.

Lemma write_row_out p row w : w_out (snd (write_row p row w)) = w_out w.
Proof. unfold write_row. by repeat case_match. Qed.

Lemma write_samples_same_out path ts st l :
  frame same_out (write_samples path ts st l).
Proof.
  induction l as [|d l IH]; simpl.
  - apply frame_ret, same_out_refl.
  - apply (frame_bind _ same_out_trans);
      [apply sample_row_frame; [apply same_out_refl | apply same_out_trans]|].
    intros row. apply (frame_bind _ same_out_trans); [|intros; exact IH].
    apply frame_lift. intros self w. apply write_row_out.
Qed.

(** C8 counterexample: the constructor creates the output directory
    outside any [try]; when that fails (permission denied) the exception
    reaches the caller of the constructor. *)
Lemma constructor_makedirs_error_propagates :
  let w := mkWorld ∅ {[ "output_data" ]} [] in
  CSVWriter_init ex_cfg w =
    (Exc (io_error "[Errno 13] Permission denied: 'output_data'"), w).
Proof. vm_compute. reflexivity. Qed.

(** Steps of a method body that print nothing. *)
Ltac out_frame :=
  repeat first
    [ apply write_samples_same_out
    | apply frame_lift; intros ?self ?w; first [apply open_file_out | apply write_row_out]
    | apply (frame_bind _ same_out_trans); [| intro]
    | apply (frame_ret _ same_out_refl)
    | apply (frame_raise _ same_out_refl)
    | apply (frame_of_sum _ same_out_refl)
    | apply (frame_get _ same_out_refl)
    | apply (frame_get_self _ same_out_refl) ].

Lemma open_write_out p hdr w :
  w_out (snd ((open_file p ModeW ;; write_row p hdr) w)) = w_out w.
Proof. by destruct (open_write_header p hdr w) as [E|[e E]]; rewrite E. Qed.

(** The [try] block of [initialize_files] prints nothing. *)
Lemma initialize_files_body_out : frame same_out initialize_files_body.
Proof.
  unfold initialize_files_body.
  repeat first
    [ progress cbv zeta
    | apply (frame_bind _ same_out_trans); [| intro]
    | match goal with |- frame _ (if ?c then _ else _) => destruct c end
    | apply frame_lift; intros ?self ?w;
        first [apply open_write_out | reflexivity]
    | apply (frame_ret _ same_out_refl)
    | apply (frame_get_self _ same_out_refl)
    | intros ?s; reflexivity ].
Qed.

Lemma returns_bind {A B} (P : B -> Prop) (m : M St A) (k : A -> M St B) :
  (forall a s b s', k a s = (Ok b, s') -> P b) ->
  forall s b s', (m ≫= k) s = (Ok b, s') -> P b.
Proof.
  intros Hk s b s'. unfold mbind, M_bind.
  destruct (m s) as [[a|e] s1]; [apply Hk | discriminate].
Qed.

(** The [try] block of [initialize_files] returns [True] when it returns. *)
Lemma initialize_files_body_true s b s' :
  initialize_files_body s = (Ok b, s') -> b = true.
Proof.
  revert s b s'. unfold initialize_files_body.
  repeat (cbv zeta; apply (returns_bind (fun b => b = true)); intros ?).
  intros ? ? ? H. unfold mret, M_ret in H. congruence.
Qed.

(** C8 (amended): no exception escapes [initialize_files], [write_data]
    or [write_hazard_event].  Their [try] block prints nothing; when it
    raises an exception [e], the call prints the fixed prefix followed by
    the message of [e] and then returns [False] ([initialize_files]) or
    returns normally (the two writes), in the state the block left; when
    the block does not raise, the call returns what the block returned,
    which for [initialize_files] is [True].  The output directory, on the
    other hand, is created by the constructor outside any handler: when
    the directory is absent and its creation raises, the constructor
    raises that same exception (for instance when the name is refused). *)
Theorem io_errors_caught_in_methods :
  (forall s,
     w_out (snd (snd (initialize_files_body s))) = w_out (snd s) /\
     initialize_files s =
       match initialize_files_body s with
       | (Ok _, s') => (Ok true, s')
       | (Exc e, s') => (Ok false, printed s' ("Failed to initialize CSV files: " +:+ exn_msg e))
       end) /\
  (forall l st s, l <> [] ->
     w_out (snd (snd (write_data_body l st s))) = w_out (snd s) /\
     write_data l st s =
       match write_data_body l st s with
       | (Ok _, s') => (Ok tt, s')
       | (Exc e, s') => (Ok tt, printed s' ("Error writing data: " +:+ exn_msg e))
       end) /\
  (forall fr ev s,
     w_out (snd (snd (write_hazard_event_body fr ev s))) = w_out (snd s) /\
     write_hazard_event fr ev s =
       match write_hazard_event_body fr ev s with
       | (Ok _, s') => (Ok tt, s')
       | (Exc e, s') => (Ok tt, printed s' ("Error writing hazard event: " +:+ exn_msg e))
       end) /\
  (forall cfg w e w',
     w_fs w !! "output_data" = None ->
     os_makedirs "output_data" w = (Exc e, w') ->
     CSVWriter_init cfg w = (Exc e, w')) /\
  (forall cfg w,
     w_fs w !! "output_data" = None -> "output_data" ∈ w_denied w ->
     exists e, exn_kind e = IOError /\ CSVWriter_init cfg w = (Exc e, w)).
Proof.
  assert (Hinit : forall cfg w e w',
     w_fs w !! "output_data" = None ->
     os_makedirs "output_data" w = (Exc e, w') ->
     CSVWriter_init cfg w = (Exc e, w')).
  { intros cfg w e w' Habs Hm. unfold CSVWriter_init, mbind, M_bind at 1, os_path_exists.
    rewrite Habs. cbn -[os_makedirs]. unfold mbind, M_bind. by rewrite Hm. }
  split; [|split; [|split; [|split]]].
  - intros s. split; [apply initialize_files_body_out|].
    change (initialize_files s) with
      (try_except initialize_files_body
         (fun e => lift (print ("Failed to initialize CSV files: " +:+ exn_msg e));; mret false) s).
    unfold try_except.
    destruct (initialize_files_body s) as [[b|e] [self' w']] eqn:E; [|reflexivity].
    by rewrite (initialize_files_body_true _ _ _ E).
  - intros l st s Hl. destruct l as [|d l]; [done|].
    split; [unfold write_data_body; out_frame|].
    change (write_data (d :: l) st s) with
      (try_except (write_data_body (d :: l) st)
         (fun e => lift (print ("Error writing data: " +:+ exn_msg e))) s).
    unfold try_except.
    by destruct (write_data_body (d :: l) st s) as [[[]|e] [self' w']].
  - intros fr ev s.
    split; [unfold write_hazard_event_body; out_frame|].
    change (write_hazard_event fr ev s) with
      (try_except (write_hazard_event_body fr ev)
         (fun e => lift (print ("Error writing hazard event: " +:+ exn_msg e))) s).
    unfold try_except.
    by destruct (write_hazard_event_body fr ev s) as [[[]|e] [self' w']].
  - exact Hinit.
  - intros cfg w Habs Hd. eexists. split; [|apply Hinit; [exact Habs|]].
    2: { unfold os_makedirs. rewrite bool_decide_eq_true_2 by exact Hd. reflexivity. }
    reflexivity.
Qed.

(** ** Witnesses: each theorem with hypotheses, applied at a concrete input. *)

Lemma output_dir_made_by_constructor_only_witness :
  let self := set_write_header_hazard (set_write_header_data ex_self false) false in
  let w := mkWorld ∅ ∅ [] in
  wf_writer self /\ w_fs w !! output_dir self = None /\
  w_fs w !! data_path self = None /\ w_fs w !! hazard_path self = None /\
  initialize_files (self, w) = (Ok true, (self, w)) /\
  exists e, exn_kind e = IOError /\
    initialize_files (ex_self, w) =
      (Ok false, (ex_self, mkWorld ∅ ∅ ["Failed to initialize CSV files: " +:+ exn_msg e])).
Proof.
  intros self w.
  assert (Hwf : wf_writer self) by (split; [|split]; reflexivity).
  assert (Hwf0 : wf_writer ex_self) by (split; [|split]; reflexivity).
  assert (Ho : w_fs w !! output_dir self = None) by (vm_compute; reflexivity).
  assert (Hd : w_fs w !! data_path self = None) by (vm_compute; reflexivity).
  assert (Hh : w_fs w !! hazard_path self = None) by (vm_compute; reflexivity).
  assert (Ho0 : w_fs w !! output_dir ex_self = None) by (vm_compute; reflexivity).
  assert (Hd0 : w_fs w !! data_path ex_self = None) by (vm_compute; reflexivity).
  assert (Hh0 : w_fs w !! hazard_path ex_self = None) by (vm_compute; reflexivity).
  assert (Hb : py_truthy (append_mode self) && negb (write_header_data self)
                 && negb (write_header_hazard self) = true) by reflexivity.
  assert (Hb0 : py_truthy (append_mode ex_self) && negb (write_header_data ex_self)
                  && negb (write_header_hazard ex_self) = false) by reflexivity.
  pose proof (proj2 (proj2 output_dir_made_by_constructor_only)) as C.
  split; [exact Hwf|]. split; [exact Ho|]. split; [exact Hd|]. split; [exact Hh|].
  split; [exact (proj1 (C self w Hwf Ho Hd Hh) Hb)|].
  exact (proj2 (C ex_self w Hwf0 Ho0 Hd0 Hh0) Hb0).
Defined.

Lemma io_errors_caught_in_methods_witness :
  let w := mkWorld ∅ {[ "output_data" ]} [] in
  w_fs w !! "output_data" = None /\ "output_data" ∈ w_denied w /\
  (exists e, exn_kind e = IOError /\ CSVWriter_init ex_cfg w = (Exc e, w)) /\
  [VDict []] <> [] /\
  write_data [VDict []] (VDict []) (ex_self, w) =
    match write_data_body [VDict []] (VDict []) (ex_self, w) with
    | (Ok _, s') => (Ok tt, s')
    | (Exc e, s') => (Ok tt, printed s' ("Error writing data: " +:+ exn_msg e))
    end.
Proof.
  intros w.
  assert (Ha : w_fs w !! "output_data" = None) by (vm_compute; reflexivity).
  assert (Hd : "output_data" ∈ w_denied w) by (cbn; set_solver).
  assert (Hl : [VDict []] <> ([] : list pyval)) by discriminate.
  pose proof io_errors_caught_in_methods as (_ & Hw & _ & _ & Hc).
  split; [exact Ha|]. split; [exact Hd|]. split; [exact (Hc ex_cfg w Ha Hd)|].
  split; [exact Hl|]. exact (proj2 (Hw _ _ _ Hl)).
Defined.

Lemma initialize_files_header_when_needed_witness :
  let s1 := snd (initialize_files (ex_self, ex_world)) in
  reachable (ex_self, ex_world) /\
  initialize_files (ex_self, ex_world) = (Ok true, (fst s1, snd s1)) /\
  file_rows (snd s1) (data_path ex_self) = Some [data_header].
Proof.
  intros s1.
  assert (Hr : reachable (ex_self, ex_world))
    by (apply (reach_init ex_cfg (mkWorld ∅ ∅ [])); vm_compute; reflexivity).
  assert (Hi : initialize_files (ex_self, ex_world) = (Ok true, (fst s1, snd s1)))
    by (vm_compute; reflexivity).
  split; [exact Hr|]. split; [exact Hi|].
  apply (proj1 (initialize_files_header_when_needed _ _ _ _ Hr Hi)).
  vm_compute. reflexivity.
Defined.

Lemma initialize_files_twice_no_duplicate_header_witness :
  py_truthy (append_mode ex_self) = true /\
  (let s1 := snd (initialize_files (ex_self, ex_world)) in
   let s2 := snd (initialize_files s1) in
   (forall p, is_Some (w_fs ex_world !! p) -> w_fs (snd s1) !! p = w_fs ex_world !! p) /\
   (forall p, is_Some (w_fs (snd s1) !! p) -> w_fs (snd s2) !! p = w_fs (snd s1) !! p)).
Proof.
  split; [reflexivity|].
  apply (initialize_files_twice_no_duplicate_header ex_self ex_world). reflexivity.
Defined.

Lemma sample_row_two_decimals_witness :
  let d := [(VStr "speed", VInt 5); (VStr "x", VFloat (FFinite true 3 (-2)))] in
  let row := expected_row (VInt 0) (VInt 0) d in
  sample_row (VInt 0) (VInt 0) (VDict d) (ex_self, ex_world) = (Ok row, (ex_self, ex_world)) /\
  Forall2 (fun k c => finite_number (field_or d k (VInt 0)) = true ->
                      exists str, c = VStr str /\ two_decimals str)
          numeric_keys (take 5 (drop 4 row)) /\
  take 5 (drop 4 row) = [VStr "-0.75"; VStr "0.00"; VStr "5.00"; VStr "0.00"; VStr "0.00"].
Proof.
  intros d row.
  assert (H : sample_row (VInt 0) (VInt 0) (VDict d) (ex_self, ex_world) =
              (Ok row, (ex_self, ex_world))) by (vm_compute; reflexivity).
  split; [exact H|]. split; [|vm_compute; reflexivity].
  exact (proj1 (sample_row_two_decimals _ _ _ _ _ _ H)).
Defined.

Lemma write_data_appends_rows_witness :
  let ds := [[(VStr "id", VStr "car1"); (VStr "speed", VInt 5)]; []] in
  let sd := [(VStr "step", VInt 3)] in
  io_ok ex_world (data_path ex_self) /\ ds <> [] /\ Forall numeric_ok ds /\
  file_rows (snd (snd (write_data (map VDict ds) (VDict sd) (ex_self, ex_world))))
            (data_path ex_self) =
    Some [[VInt 0; VInt 3; VStr "car1"; VStr ""; VStr "0.00"; VStr "0.00"; VStr "5.00";
           VStr "0.00"; VStr "0.00"; VStr ""; VBool false];
          [VInt 0; VInt 3; VStr ""; VStr ""; VStr "0.00"; VStr "0.00"; VStr "0.00";
           VStr "0.00"; VStr "0.00"; VStr ""; VBool false]].
Proof.
  intros ds sd.
  assert (Hio : io_ok ex_world (data_path ex_self)).
  { split; [vm_compute; reflexivity|]. split; [vm_compute; set_solver|].
    intros e He. vm_compute in He. discriminate. }
  assert (Hne : ds <> []) by discriminate.
  assert (Hall : Forall numeric_ok ds).
  { repeat constructor; intros k Hk; repeat destruct Hk as [<-|Hk]; try contradiction;
      eexists; vm_compute; reflexivity. }
  split; [exact Hio|]. split; [exact Hne|]. split; [exact Hall|].
  rewrite (proj1 (write_data_appends_rows ds sd ex_self ex_world Hio Hne Hall)).
  vm_compute. reflexivity.
Defined.

Lemma write_hazard_event_appends_row_witness :
  let ev := [(VStr "hazard_name", VStr "pothole"); (VStr "timestamp", VInt 12);
             (VStr "metadata", VDict [])] in
  io_ok ex_world (hazard_path ex_self) /\
  file_rows (snd (snd (write_hazard_event ex_float_repr (VDict ev) (ex_self, ex_world))))
            (hazard_path ex_self) =
    Some [[VInt 12; VStr "pothole"; VStr "{}"]].
Proof.
  intros ev.
  assert (Hio : io_ok ex_world (hazard_path ex_self)).
  { split; [vm_compute; reflexivity|]. split; [vm_compute; set_solver|].
    intros e He. vm_compute in He. discriminate. }
  split; [exact Hio|].
  rewrite (proj1 (write_hazard_event_appends_row ex_float_repr ev ex_self ex_world Hio)).
  vm_compute. reflexivity.
Defined.

Lemma append_mode_default_true_witness :
  dict_lookup [(VStr "simulation", VDict [])] "simulation" = Some (VDict []) /\
  dict_lookup [] "csv_append_mode" = None /\
  CSVWriter_init ex_cfg (mkWorld ∅ ∅ []) = (Ok ex_self, ex_world) /\
  append_mode ex_self = VBool true.
Proof.
  assert (H1 : dict_lookup [(VStr "simulation", VDict [])] "simulation" = Some (VDict []))
    by reflexivity.
  assert (H2 : dict_lookup [] "csv_append_mode" = None) by reflexivity.
  assert (H3 : CSVWriter_init ex_cfg (mkWorld ∅ ∅ []) = (Ok ex_self, ex_world))
    by (vm_compute; reflexivity).
  split; [exact H1|]. split; [exact H2|]. split; [exact H3|].
  exact (append_mode_default_true _ _ _ _ _ H1 H2 H3).
Defined.

Lemma write_destinations_disjoint_witness :
  wf_writer ex_self /\
  w_fs (snd (snd (write_data [VDict []] (VDict []) (ex_self, ex_world)))) !! hazard_path ex_self =
    w_fs ex_world !! hazard_path ex_self.
Proof.
  assert (Hwf : wf_writer ex_self) by (split; [|split]; reflexivity).
  split; [exact Hwf|].
  exact (proj1 (proj2 (write_destinations_disjoint ex_float_repr [VDict []] (VDict [])
                         (VDict []) ex_self ex_world Hwf))).
Defined.

(* ------------------------------------------------------------------ *)
(** * Further properties of the code *)


Lemma open_write_ok w p hdr :
  io_ok w p ->
  (open_file p ModeW ;; write_row p hdr) w =
    (Ok tt, set_fs w (<[p := EFile [hdr]]> (w_fs w))).
Proof.
  intros (Hd & Hden & Hnd).
  destruct (open_write_header p hdr w) as [E|[e E]]; [exact E|exfalso].
  revert E. unfold mbind, M_bind, open_file. cbv zeta. rewrite Hd, andb_false_r.
  rewrite bool_decide_eq_false_2 by done.
  destruct (w_fs w !! p) as [[|rows]|] eqn:Ep.
  - by destruct (Hnd EDir).
  - unfold write_row, set_fs; cbn. by rewrite lookup_insert_eq.
  - unfold write_row, set_fs; cbn. by rewrite lookup_insert_eq.
Qed.

Lemma io_ok_insert_file w p q rows :
  q <> p -> dirname q <> p -> io_ok w q ->
  io_ok (set_fs w (<[p := EFile rows]> (w_fs w))) q.
Proof.
  intros Hqp Hdp (Hd & Hden & Hnd). unfold io_ok, is_dir, set_fs in *; cbn.
  rewrite !lookup_insert_ne by congruence. auto.
Qed.

(** In overwrite mode (a falsy [append_mode]), when both files can be
    opened, [initialize_files] returns [True] and replaces each file by a
    file holding only its header row, whatever it held before. *)
Theorem initialize_files_overwrite self w :
  wf_writer self -> py_truthy (append_mode self) = false ->
  io_ok w (data_path self) -> io_ok w (hazard_path self) ->
  initialize_files (self, w) =
    (Ok true, (self, set_fs w (<[hazard_path self := EFile [hazard_header]]>
                               (<[data_path self := EFile [data_header]]> (w_fs w))))).
Proof.
  intros (Ho & Hdp & Hhp) Ha Hiod Hioh.
  unfold initialize_files, try_except. run_steps.
  rewrite bind_lift, (open_write_ok _ _ _ Hiod). cbv beta iota.
  assert (Hne1 : hazard_path self <> data_path self) by (rewrite Hhp, Hdp; discriminate).
  assert (Hne2 : dirname (hazard_path self) <> data_path self)
    by (rewrite Hhp, Hdp; vm_compute; discriminate).
  rewrite bind_lift, (open_write_ok _ _ _ (io_ok_insert_file _ _ _ _ Hne1 Hne2 Hioh)).
  reflexivity.
Qed.

Lemma initialize_files_append_noop self w :
  py_truthy (append_mode self) = true ->
  (is_Some (w_fs w !! data_path self) \/ write_header_data self = false) ->
  (is_Some (w_fs w !! hazard_path self) \/ write_header_hazard self = false) ->
  initialize_files (self, w) =
    (Ok true, (set_write_header_hazard (set_write_header_data self false) false, w)).
Proof.
  intros Ha Hd Hh. unfold initialize_files, try_except. run_steps.
  destruct (bool_decide (is_Some (w_fs w !! data_path self))) eqn:Ed;
  destruct (bool_decide (is_Some (w_fs w !! hazard_path self))) eqn:Eh;
  run_steps.
  all: repeat match goal with
       | H : bool_decide _ = false, H' : is_Some _ \/ _ |- _ =>
           apply bool_decide_eq_false in H; destruct H' as [H'|H']; [contradiction|]
       end.
  all: run_steps; destruct self; cbn in *; subst; reflexivity.
Qed.

(** In append mode, when both paths already exist (whatever they are),
    [initialize_files] opens nothing, returns [True], turns both header
    flags off and leaves the world as it was. *)
Theorem initialize_files_append_existing self w :
  py_truthy (append_mode self) = true ->
  is_Some (w_fs w !! data_path self) -> is_Some (w_fs w !! hazard_path self) ->
  initialize_files (self, w) =
    (Ok true, (set_write_header_hazard (set_write_header_data self false) false, w)).
Proof. intros Ha Hd Hh. apply initialize_files_append_noop; auto. Qed.

(** In append mode, after a successful [initialize_files], a second call
    returns [True] and leaves the world exactly as the first left it. *)
Theorem initialize_files_append_idempotent self w self1 w1 :
  py_truthy (append_mode self) = true ->
  initialize_files (self, w) = (Ok true, (self1, w1)) ->
  initialize_files (self1, w1) =
    (Ok true, (set_write_header_hazard (set_write_header_data self1 false) false, w1)).
Proof.
  intros Ha H1.
  pose proof (initialize_files_cases self w) as C. cbv zeta in C. rewrite Ha in C.
  cbn [andb orb negb] in C.
  destruct C as [E|(e & fs' & E & _)]; rewrite E in H1; [|discriminate].
  injection H1 as <- <-.
  apply initialize_files_append_noop.
  - by destruct (bool_decide (is_Some (w_fs w !! data_path self))),
      (bool_decide (is_Some (w_fs w !! hazard_path self))).
  - destruct (bool_decide (is_Some (w_fs w !! data_path self))) eqn:Ed;
    destruct (bool_decide (is_Some (w_fs w !! hazard_path self))) eqn:Eh;
    cbn [set_write_header_data set_write_header_hazard write_header_data
         write_header_hazard data_path hazard_path w_fs set_fs] in *;
    try (apply bool_decide_eq_true in Ed);
    destruct (write_header_data self) eqn:Hwd, (write_header_hazard self) eqn:Hwh;
    cbn; rewrite ?lookup_insert_is_Some'; auto.
  - destruct (bool_decide (is_Some (w_fs w !! data_path self))) eqn:Ed;
    destruct (bool_decide (is_Some (w_fs w !! hazard_path self))) eqn:Eh;
    cbn [set_write_header_data set_write_header_hazard write_header_data
         write_header_hazard data_path hazard_path w_fs set_fs] in *;
    try (apply bool_decide_eq_true in Eh);
    destruct (write_header_data self) eqn:Hwd, (write_header_hazard self) eqn:Hwh;
    cbn; rewrite ?lookup_insert_is_Some'; auto.
Qed.

(** When [initialize_files] returns [False] it has printed exactly one
    line, the fixed prefix and the exception's message; no path other
    than the two CSV files has changed; and in append mode no path that
    existed before the call has changed (an existing CSV file is never
    opened then). *)
Theorem initialize_files_failure_effect self w :
  wf_writer self ->
  fst (initialize_files (self, w)) = Ok false ->
  let w' := snd (snd (initialize_files (self, w))) in
  (exists e, w_out w' = app (w_out w) ["Failed to initialize CSV files: " +:+ exn_msg e]) /\
  (forall q, q <> data_path self -> q <> hazard_path self -> w_fs w' !! q = w_fs w !! q) /\
  (py_truthy (append_mode self) = true ->
   forall q, is_Some (w_fs w !! q) -> w_fs w' !! q = w_fs w !! q).
Proof.
  intros (Ho & Hdp & Hhp) Hf w'. subst w'.
  destruct (initialize_files_cases self w) as [E|(e & fs' & E & Hfs)]; rewrite E in *;
    [discriminate|]. cbn [snd w_fs w_out].
  split; [by exists e|]. split.
  - intros q Hq _. destruct Hfs as [->|[_ ->]]; [done|].
    destruct (negb (py_truthy (append_mode self)) || _); [by rewrite lookup_insert_ne | done].
  - intros Ha q Hq. destruct Hfs as [->|[Hc1 ->]]; [done|].
    destruct (decide (q = data_path self)) as [->|Hne].
    + exfalso. rewrite Ha, (bool_decide_eq_true_2 _ Hq) in Hc1.
      destruct (bool_decide (is_Some (w_fs w !! hazard_path self))); discriminate.
    + destruct (negb (py_truthy (append_mode self)) || _); [by rewrite lookup_insert_ne | done].
Qed.


Lemma st_keeps_rows_refl s : st_keeps_rows s s.
Proof. intros p rows H. exists []. by rewrite app_nil_r. Qed.

Lemma st_keeps_rows_trans s1 s2 s3 :
  st_keeps_rows s1 s2 -> st_keeps_rows s2 s3 -> st_keeps_rows s1 s3.
Proof.
  intros H1 H2 p rows H. destruct (H1 p rows H) as [m1 Hm1].
  destruct (H2 p _ Hm1) as [m2 Hm2]. exists (m1 ++ m2)%list. by rewrite app_assoc.
Qed.

Lemma open_file_append_keeps_rows p w : keeps_rows w (snd (open_file p ModeA w)).
Proof.
  intros q rows H. exists []. rewrite app_nil_r. revert H. unfold open_file, file_rows.
  repeat case_match; simplify_eq/=; try done;
    destruct (decide (q = p)) as [->|Hne]; simplify_map_eq; done.
Qed.

Lemma write_row_keeps_rows p row w : keeps_rows w (snd (write_row p row w)).
Proof.
  intros q rows H. unfold write_row, file_rows in *.
  destruct (w_fs w !! p) as [[|rs]|] eqn:Ep; cbn; try (exists []; by rewrite app_nil_r).
  destruct (decide (q = p)) as [->|Hne].
  - rewrite Ep in H. injection H as <-. rewrite lookup_insert_eq. by exists [row].
  - rewrite lookup_insert_ne by done. exists []. by rewrite app_nil_r.
Qed.

Lemma write_samples_keeps_rows path ts st l :
  frame st_keeps_rows (write_samples path ts st l).
Proof.
  induction l as [|d l IH]; simpl.
  - apply frame_ret, st_keeps_rows_refl.
  - apply (frame_bind _ st_keeps_rows_trans);
      [apply sample_row_frame; [apply st_keeps_rows_refl | apply st_keeps_rows_trans]|].
    intros row. apply (frame_bind _ st_keeps_rows_trans); [|intros; exact IH].
    apply frame_lift. intros self w. apply write_row_keeps_rows.
Qed.

Lemma print_keeps_rows m w : keeps_rows w (snd (print m w)).
Proof. intros p rows H. exists []. by rewrite app_nil_r. Qed.

Ltac rows_frame :=
  repeat first
    [ apply write_samples_keeps_rows
    | apply frame_lift; intros ?self ?w;
      first [apply open_file_append_keeps_rows | apply write_row_keeps_rows
            | apply print_keeps_rows]
    | apply (frame_try _ st_keeps_rows_trans); [| intro]
    | apply (frame_bind _ st_keeps_rows_trans); [| intro]
    | apply (frame_ret _ st_keeps_rows_refl)
    | apply (frame_raise _ st_keeps_rows_refl)
    | apply (frame_of_sum _ st_keeps_rows_refl)
    | apply (frame_get _ st_keeps_rows_refl)
    | apply (frame_get_self _ st_keeps_rows_refl) ].

(** No row already in a file is removed or rewritten by [write_data] or
    [write_hazard_event] (any mode), nor by [initialize_files] in append
    mode: the old rows stay the first rows of the file. *)
Theorem rows_never_removed :
  (forall l st s, keeps_rows (snd s) (snd (snd (write_data l st s)))) /\
  (forall fr ev s, keeps_rows (snd s) (snd (snd (write_hazard_event fr ev s)))) /\
  (forall self w, py_truthy (append_mode self) = true ->
     keeps_rows w (snd (snd (initialize_files (self, w))))).
Proof.
  split; [|split].
  - intros l st s. destruct l as [|d l]; [apply st_keeps_rows_refl|].
    enough (Hf : frame st_keeps_rows (write_data (d :: l) st)) by exact (Hf s).
    unfold write_data. rows_frame.
  - intros fr ev s.
    enough (Hf : frame st_keeps_rows (write_hazard_event fr ev)) by exact (Hf s).
    unfold write_hazard_event. rows_frame.
  - intros self w Ha p rows H. exists []. rewrite app_nil_r.
    unfold file_rows in *. rewrite initialize_files_append_keeps; [done|done|].
    destruct (w_fs w !! p) as [[]|]; done.
Qed.

(** A record [write_data] cannot render: not a dict, or a dict with a
    numeric field that has no [.2f] rendering. *)
Definition bad_record (v : pyval) : Prop :=
  match v with
  | VDict d => ~ numeric_ok d
  | _ => True
  end.

Lemma sample_row_bad ts st v s :
  bad_record v -> exists e, sample_row ts st v s = (Exc e, s).
Proof.
  intros Hb. destruct (sample_row ts st v s) as [[row|e] s'] eqn:E.
  - exfalso. destruct v as [| | | | | |d]; try (unfold sample_row in E; discriminate).
    by destruct (sample_row_ok _ _ _ _ _ _ E) as (_ & _ & Hn).
  - exists e. f_equal.
    pose proof (sample_row_frame (fun s s' => s' = s) ts st v
                  (fun _ => eq_refl) (fun _ _ _ H1 H2 => eq_trans H2 H1) s) as Hs.
    cbv beta in Hs. by rewrite E in Hs.
Qed.

Lemma write_samples_partial p ts st ds1 bad l2 self w old :
  w_fs w !! p = Some (EFile old) -> Forall numeric_ok ds1 -> bad_record bad ->
  exists e, write_samples p ts st (map VDict ds1 ++ bad :: l2) (self, w) =
    (Exc e, (self, set_fs w (<[p := EFile (old ++ map (expected_row ts st) ds1)]> (w_fs w)))).
Proof.
  induction ds1 as [|d ds IH] in w, old |- *; intros Hp Hall Hb.
  - cbn [map app write_samples]. destruct (sample_row_bad ts st bad (self, w) Hb) as [e E].
    exists e. unfold mbind, M_bind. rewrite E. rewrite app_nil_r, insert_id by done.
    by destruct w.
  - inversion Hall as [|? ? Hd Hds]; subst.
    cbn [map app write_samples].
    rewrite (bind_ok _ _ _ _ _ (sample_row_spec ts st d (self, w) Hd)).
    rewrite bind_lift, (write_row_ok _ _ _ _ Hp).
    set (w1 := set_fs w (<[p := EFile (old ++ [expected_row ts st d])]> (w_fs w))).
    destruct (IH w1 (old ++ [expected_row ts st d])%list) as [e E];
      [by unfold w1, set_fs; cbn; rewrite lookup_insert_eq|done|done|].
    exists e. cbv beta. rewrite E. unfold w1, set_fs; cbn.
    by rewrite insert_insert_eq, <- app_assoc.
Qed.

(** The rows of a batch are written one by one: when a record cannot be
    rendered, the rows of the records before it stay appended, no row is
    written for it or any later record, one error line is printed and the
    call returns normally. *)
Theorem write_data_stops_at_bad_record ds1 bad l2 sd self w :
  io_ok w (data_path self) -> Forall numeric_ok ds1 -> bad_record bad ->
  exists e,
    write_data (map VDict ds1 ++ bad :: l2) (VDict sd) (self, w) =
      (Ok tt, (self, mkWorld
        (<[data_path self :=
           EFile (default [] (file_rows w (data_path self)) ++
                  map (expected_row (field_or sd "simulation_time" (VInt 0))
                                    (field_or sd "step" (VInt 0))) ds1)]> (w_fs w))
        (w_denied w) (app (w_out w) ["Error writing data: " +:+ exn_msg e]))).
Proof.
  intros Hio Hall Hb. unfold write_data.
  destruct (map VDict ds1 ++ bad :: l2)%list as [|x l] eqn:El;
    [by destruct (app_cons_not_nil (map VDict ds1) l2 bad)|].
  rewrite <- El. unfold try_except.
  rewrite get_dict_bind, dict_get_field_or. cbv beta.
  rewrite get_dict_bind, dict_get_field_or. cbv beta.
  rewrite get_self_bind. cbn [fst].
  rewrite bind_lift, (open_file_append_ok _ _ Hio). cbv beta iota.
  destruct (write_samples_partial (data_path self) (field_or sd "simulation_time" (VInt 0))
              (field_or sd "step" (VInt 0)) ds1 bad l2 self
              (set_fs w (<[data_path self := EFile (default [] (file_rows w (data_path self)))]>
                         (w_fs w)))
              (default [] (file_rows w (data_path self)))) as [e E];
    [by unfold set_fs; cbn; rewrite lookup_insert_eq|done|done|].
  exists e. rewrite E. unfold lift, print, set_fs; cbn. by rewrite insert_insert_eq.
Qed.

(** With a non-empty batch and a context that is not a dict, [write_data]
    fails on the context's [.get] before opening any file: nothing changes
    but one printed [AttributeError] line. *)
Theorem write_data_context_not_dict l st self w :
  l <> [] -> (forall d, st <> VDict d) ->
  exists e, exn_kind e = AttributeError /\
    write_data l st (self, w) =
      (Ok tt, (self, mkWorld (w_fs w) (w_denied w)
                       (app (w_out w) ["Error writing data: " +:+ exn_msg e]))).
Proof.
  intros Hl Hst. destruct l as [|x l]; [done|].
  destruct st as [| | | | | |d]; try (by destruct (Hst d));
    eexists; (split; [|reflexivity]); reflexivity.
Qed.

(** [write_hazard_event] opens the events file before reading the event:
    for an event that is not a dict, the file is created empty when absent
    (and kept as it was otherwise), no row is written and one
    [AttributeError] line is printed. *)
Theorem write_hazard_event_not_dict fr ev self w :
  io_ok w (hazard_path self) -> (forall d, ev <> VDict d) ->
  exists e, exn_kind e = AttributeError /\
    write_hazard_event fr ev (self, w) =
      (Ok tt, (self, mkWorld
        (<[hazard_path self := EFile (default [] (file_rows w (hazard_path self)))]> (w_fs w))
        (w_denied w)
        (app (w_out w) ["Error writing hazard event: " +:+ exn_msg e]))).
Proof.
  intros Hio Hev. unfold write_hazard_event, try_except.
  rewrite get_self_bind. cbn [fst].
  rewrite bind_lift, (open_file_append_ok _ _ Hio). cbv beta iota.
  destruct ev as [| | | | | |d]; try (by destruct (Hev d));
    eexists; (split; [|reflexivity]); reflexivity.
Qed.

(** The constructor's only effect on the world is creating [output_data]
    as a directory when no entry of that name exists; it does so before
    reading the configuration, so also when the configuration is then
    refused. *)
Theorem CSVWriter_init_fs cfg w :
  "output_data" ∉ w_denied w ->
  let w' := snd (CSVWriter_init cfg w) in
  w_fs w' = (if bool_decide (is_Some (w_fs w !! "output_data")) then w_fs w
             else <["output_data" := EDir]> (w_fs w)) /\
  w_denied w' = w_denied w /\ w_out w' = w_out w.
Proof.
  intros Hden w'. subst w'.
  unfold CSVWriter_init, mbind, M_bind, os_path_exists, os_makedirs, subscript, get,
    raise, mret, M_ret, set_fs.
  cbv zeta. destruct (w_fs w !! "output_data") as [ent|] eqn:E.
  - rewrite bool_decide_eq_true_2 by eauto. cbn [negb].
    repeat (case_match; simplify_eq/=; try done).
  - rewrite bool_decide_eq_false_2 by (by intros []). cbn [negb]. cbv beta.
    rewrite (bool_decide_eq_false_2 _ Hden), E.
    repeat (case_match; simplify_eq/=; try done).
Qed.

(** When the output directory step succeeds, the constructor succeeds
    exactly when the configuration is a dict whose ["simulation"] entry is
    a dict, and then [append_mode] is that dict's [csv_append_mode]
    (default [True]) and both header flags are [True]; a configuration
    that is not a dict gives a [TypeError], a missing ["simulation"] a
    [KeyError], a non-dict ["simulation"] an [AttributeError]. *)
Theorem CSVWriter_init_result cfg w :
  "output_data" ∉ w_denied w ->
  match cfg with
  | VDict d =>
      match dict_lookup d "simulation" with
      | Some (VDict sd) =>
          fst (CSVWriter_init cfg w) =
            Ok (mkCSVWriter cfg "output_data" "simulation_data.csv" "hazard_events.csv"
                  "output_data/simulation_data.csv" "output_data/hazard_events.csv"
                  (dict_get sd "csv_append_mode" (VBool true)) true true)
      | Some _ => exists e, fst (CSVWriter_init cfg w) = Exc e /\ exn_kind e = AttributeError
      | None => exists e, fst (CSVWriter_init cfg w) = Exc e /\ exn_kind e = KeyError
      end
  | _ => exists e, fst (CSVWriter_init cfg w) = Exc e /\ exn_kind e = TypeError
  end.
Proof.
  intros Hden.
  unfold CSVWriter_init, mbind, M_bind, os_path_exists, os_makedirs, subscript, get,
    raise, mret, M_ret, set_fs.
  cbv zeta. destruct (w_fs w !! "output_data") as [ent|] eqn:E;
    [ rewrite bool_decide_eq_true_2 by eauto; cbn [negb]
    | rewrite bool_decide_eq_false_2 by (by intros []); cbn [negb]; cbv beta;
      rewrite (bool_decide_eq_false_2 _ Hden), E ].
  all: destruct cfg as [| | | | | |d]; try (eexists; split; reflexivity);
    destruct (dict_lookup d "simulation") as [[| | | | | |sd]|];
    try (eexists; split; reflexivity); reflexivity.
Qed.

(** No method changes the object's configuration, paths or
    [append_mode]; [initialize_files] only turns header flags off, and
    the two writes leave the object as it was. *)
Theorem methods_keep_attributes :
  (forall s, attrs_kept (fst s) (fst (snd (initialize_files s)))) /\
  (forall l st s, fst (snd (write_data l st s)) = fst s) /\
  (forall fr ev s, fst (snd (write_hazard_event fr ev s)) = fst s).
Proof.
  split; [|split].
  - intros [self w]. destruct (initialize_files_after self w) as [-> _]. cbn [fst].
    destruct self; cbn.
    repeat case_match; cbn; repeat split; auto.
  - intros l st [self w]. apply (write_data_only_at l st self w).
  - intros fr ev [self w]. apply (write_hazard_event_only_at fr ev self w).
Qed.


(** When the output directory is missing, [write_data] (non-empty batch,
    dict context) and [write_hazard_event] create nothing: the open fails,
    one [IOError] line is printed and the call returns normally. *)
Theorem writes_without_directory l sd fr ev self w :
  wf_writer self -> is_dir w "output_data" = false -> l <> [] ->
  (exists e, exn_kind e = IOError /\
     write_data l (VDict sd) (self, w) =
       (Ok tt, (self, mkWorld (w_fs w) (w_denied w)
                        (app (w_out w) ["Error writing data: " +:+ exn_msg e])))) /\
  (exists e, exn_kind e = IOError /\
     write_hazard_event fr ev (self, w) =
       (Ok tt, (self, mkWorld (w_fs w) (w_denied w)
                        (app (w_out w) ["Error writing hazard event: " +:+ exn_msg e])))).
Proof.
  intros (Ho & Hdp & Hhp) Hnd Hl.
  assert (Dd : dirname (data_path self) = "output_data") by (rewrite Hdp; reflexivity).
  assert (Dh : dirname (hazard_path self) = "output_data") by (rewrite Hhp; reflexivity).
  split.
  - destruct l as [|x l]; [done|]. unfold write_data, try_except.
    rewrite get_dict_bind. cbv beta. rewrite get_dict_bind. cbv beta.
    rewrite get_self_bind. cbn [fst]. rewrite bind_lift.
    destruct (open_file_no_dir (data_path self) ModeA w) as (e & E & Hk);
      [by rewrite Dd | by rewrite Dd|].
    rewrite E. exists e. split; [done|]. reflexivity.
  - unfold write_hazard_event, try_except.
    rewrite get_self_bind. cbn [fst]. rewrite bind_lift.
    destruct (open_file_no_dir (hazard_path self) ModeA w) as (e & E & Hk);
      [by rewrite Dh | by rewrite Dh|].
    rewrite E. exists e. split; [done|]. reflexivity.
Qed.


(** In overwrite mode, when the output directory is missing,
    [initialize_files] changes nothing but one printed [IOError] line and
    returns [False]. *)
Theorem initialize_files_overwrite_without_directory self w :
  wf_writer self -> py_truthy (append_mode self) = false -> is_dir w "output_data" = false ->
  exists e, exn_kind e = IOError /\
    initialize_files (self, w) =
      (Ok false, (self, mkWorld (w_fs w) (w_denied w)
                          (app (w_out w) ["Failed to initialize CSV files: " +:+ exn_msg e]))).
Proof.
  intros (Ho & Hdp & Hhp) Ha Hnd.
  assert (Dd : dirname (data_path self) = "output_data") by (rewrite Hdp; reflexivity).
  unfold initialize_files, try_except. run_steps. rewrite bind_lift.
  destruct (open_file_no_dir (data_path self) ModeW w) as (e & E & Hk);
    [by rewrite Dd | by rewrite Dd|].
  rewrite (bind_exc _ _ _ _ _ E). exists e. split; [done|]. reflexivity.
Qed.

(** In every state the program reaches, a header flag is [False] only
    when its file exists: the program turns a flag off only after seeing
    the file. *)
Theorem header_flag_off_only_if_file_exists s :
  reachable s ->
  (write_header_data (fst s) = false -> is_Some (w_fs (snd s) !! data_path (fst s))) /\
  (write_header_hazard (fst s) = false -> is_Some (w_fs (snd s) !! hazard_path (fst s))).
Proof. intros H. destruct (reachable_inv s H) as (_ & Hd & Hh). auto. Qed.

(** ** Witnesses of the further properties *)

Ltac solve_io_ok :=
  split; [vm_compute; reflexivity|];
  split; [vm_compute; set_solver|];
  let e := fresh "e" in let He := fresh "He" in
  intros e He; vm_compute in He;
  first [discriminate | injection He as <-; discriminate].

Lemma initialize_files_overwrite_witness :
  wf_writer ex_self_overwrite /\ py_truthy (append_mode ex_self_overwrite) = false /\
  io_ok ex_world_files (data_path ex_self_overwrite) /\
  io_ok ex_world_files (hazard_path ex_self_overwrite) /\
  file_rows (snd (snd (initialize_files (ex_self_overwrite, ex_world_files))))
            (data_path ex_self_overwrite) = Some [data_header].
Proof.
  assert (Hwf : wf_writer ex_self_overwrite) by (split; [|split]; reflexivity).
  assert (Ha : py_truthy (append_mode ex_self_overwrite) = false) by reflexivity.
  assert (Hd : io_ok ex_world_files (data_path ex_self_overwrite)) by solve_io_ok.
  assert (Hh : io_ok ex_world_files (hazard_path ex_self_overwrite)) by solve_io_ok.
  split; [exact Hwf|]. split; [exact Ha|]. split; [exact Hd|]. split; [exact Hh|].
  rewrite (initialize_files_overwrite _ _ Hwf Ha Hd Hh). vm_compute. reflexivity.
Defined.

Lemma initialize_files_append_existing_witness :
  py_truthy (append_mode ex_self) = true /\
  is_Some (w_fs ex_world_files !! data_path ex_self) /\
  is_Some (w_fs ex_world_files !! hazard_path ex_self) /\
  snd (snd (initialize_files (ex_self, ex_world_files))) = ex_world_files.
Proof.
  assert (Ha : py_truthy (append_mode ex_self) = true) by reflexivity.
  assert (Hd : is_Some (w_fs ex_world_files !! data_path ex_self))
    by (vm_compute; eexists; reflexivity).
  assert (Hh : is_Some (w_fs ex_world_files !! hazard_path ex_self))
    by (vm_compute; eexists; reflexivity).
  split; [exact Ha|]. split; [exact Hd|]. split; [exact Hh|].
  rewrite (initialize_files_append_existing _ _ Ha Hd Hh). reflexivity.
Defined.

Lemma initialize_files_append_idempotent_witness :
  let s1 := snd (initialize_files (ex_self, ex_world)) in
  py_truthy (append_mode ex_self) = true /\
  initialize_files (ex_self, ex_world) = (Ok true, (fst s1, snd s1)) /\
  snd (snd (initialize_files (fst s1, snd s1))) = snd s1.
Proof.
  intros s1.
  assert (Ha : py_truthy (append_mode ex_self) = true) by reflexivity.
  assert (H1 : initialize_files (ex_self, ex_world) = (Ok true, (fst s1, snd s1)))
    by (vm_compute; reflexivity).
  split; [exact Ha|]. split; [exact H1|].
  rewrite (initialize_files_append_idempotent _ _ _ _ Ha H1). reflexivity.
Defined.

Lemma initialize_files_failure_effect_witness :
  let w := mkWorld {[ "output_data" := EDir ]} {[ "output_data/hazard_events.csv" ]} [] in
  wf_writer ex_self /\
  fst (initialize_files (ex_self, w)) = Ok false /\
  w_fs (snd (snd (initialize_files (ex_self, w)))) !! "output_data" =
    w_fs w !! "output_data".
Proof.
  intros w.
  assert (Hwf : wf_writer ex_self) by (split; [|split]; reflexivity).
  assert (Hf : fst (initialize_files (ex_self, w)) = Ok false) by (vm_compute; reflexivity).
  assert (Ha : py_truthy (append_mode ex_self) = true) by reflexivity.
  assert (Hq : is_Some (w_fs w !! "output_data")) by (vm_compute; eauto).
  split; [exact Hwf|]. split; [exact Hf|].
  exact (proj2 (proj2 (initialize_files_failure_effect _ _ Hwf Hf)) Ha _ Hq).
Defined.

Lemma write_data_stops_at_bad_record_witness :
  let ds1 := [[(VStr "speed", VInt 5)]] in
  let bad := VDict [(VStr "x", VStr "abc")] in
  io_ok ex_world (data_path ex_self) /\ Forall numeric_ok ds1 /\ bad_record bad /\
  file_rows (snd (snd (write_data (map VDict ds1 ++ bad :: [VDict []])%list (VDict [])
                         (ex_self, ex_world)))) (data_path ex_self) =
    Some [[VInt 0; VInt 0; VStr ""; VStr ""; VStr "0.00"; VStr "0.00"; VStr "5.00";
           VStr "0.00"; VStr "0.00"; VStr ""; VBool false]].
Proof.
  intros ds1 bad.
  assert (Hio : io_ok ex_world (data_path ex_self)) by solve_io_ok.
  assert (Hall : Forall numeric_ok ds1).
  { repeat constructor; intros k Hk; repeat destruct Hk as [<-|Hk]; try contradiction;
      eexists; vm_compute; reflexivity. }
  assert (Hb : bad_record bad).
  { intros Hn. destruct (Hn "x") as [str Hs]; [left; reflexivity|].
    vm_compute in Hs. discriminate. }
  split; [exact Hio|]. split; [exact Hall|]. split; [exact Hb|].
  destruct (write_data_stops_at_bad_record ds1 bad [VDict []] [] ex_self ex_world Hio Hall Hb)
    as [e E].
  rewrite E. vm_compute. reflexivity.
Defined.

Lemma write_data_context_not_dict_witness :
  [VDict []] <> [] /\ (forall d, VNone <> VDict d) /\
  w_fs (snd (snd (write_data [VDict []] VNone (ex_self, ex_world)))) = w_fs ex_world.
Proof.
  assert (Hl : [VDict []] <> []) by discriminate.
  assert (Hn : forall d, VNone <> VDict d) by discriminate.
  split; [exact Hl|]. split; [exact Hn|].
  destruct (write_data_context_not_dict _ _ ex_self ex_world Hl Hn) as (e & _ & E).
  rewrite E. reflexivity.
Defined.

Lemma write_hazard_event_not_dict_witness :
  io_ok ex_world (hazard_path ex_self) /\ (forall d, VNone <> VDict d) /\
  file_rows (snd (snd (write_hazard_event ex_float_repr VNone (ex_self, ex_world))))
            (hazard_path ex_self) = Some [].
Proof.
  assert (Hio : io_ok ex_world (hazard_path ex_self)) by solve_io_ok.
  assert (Hn : forall d, VNone <> VDict d) by discriminate.
  split; [exact Hio|]. split; [exact Hn|].
  destruct (write_hazard_event_not_dict ex_float_repr _ ex_self ex_world Hio Hn) as (e & _ & E).
  rewrite E. vm_compute. reflexivity.
Defined.

Lemma CSVWriter_init_fs_witness :
  ("output_data" ∉ w_denied (mkWorld ∅ ∅ [])) /\
  fst (CSVWriter_init (VDict []) (mkWorld ∅ ∅ [])) <> Ok ex_self /\
  w_fs (snd (CSVWriter_init (VDict []) (mkWorld ∅ ∅ []))) !! "output_data" = Some EDir.
Proof.
  assert (Hden : "output_data" ∉ w_denied (mkWorld ∅ ∅ [])) by (cbn; set_solver).
  split; [exact Hden|]. split; [vm_compute; discriminate|].
  rewrite (proj1 (CSVWriter_init_fs (VDict []) _ Hden)). vm_compute. reflexivity.
Defined.

Lemma CSVWriter_init_result_witness :
  ("output_data" ∉ w_denied (mkWorld ∅ ∅ [])) /\
  fst (CSVWriter_init ex_cfg (mkWorld ∅ ∅ [])) = Ok ex_self.
Proof.
  assert (Hden : "output_data" ∉ w_denied (mkWorld ∅ ∅ [])) by (cbn; set_solver).
  split; [exact Hden|].
  exact (CSVWriter_init_result ex_cfg _ Hden).
Defined.

Lemma writes_without_directory_witness :
  wf_writer ex_self /\ is_dir (mkWorld ∅ ∅ []) "output_data" = false /\ [VDict []] <> [] /\
  w_fs (snd (snd (write_data [VDict []] (VDict []) (ex_self, mkWorld ∅ ∅ [])))) = ∅.
Proof.
  assert (Hwf : wf_writer ex_self) by (split; [|split]; reflexivity).
  assert (Hnd : is_dir (mkWorld ∅ ∅ []) "output_data" = false) by reflexivity.
  assert (Hl : [VDict []] <> []) by discriminate.
  split; [exact Hwf|]. split; [exact Hnd|]. split; [exact Hl|].
  destruct (proj1 (writes_without_directory [VDict []] [] ex_float_repr VNone ex_self _
                     Hwf Hnd Hl)) as (e & _ & E).
  rewrite E. reflexivity.
Defined.

Lemma initialize_files_overwrite_without_directory_witness :
  wf_writer ex_self_overwrite /\ py_truthy (append_mode ex_self_overwrite) = false /\
  is_dir (mkWorld ∅ ∅ []) "output_data" = false /\
  fst (initialize_files (ex_self_overwrite, mkWorld ∅ ∅ [])) = Ok false.
Proof.
  assert (Hwf : wf_writer ex_self_overwrite) by (split; [|split]; reflexivity).
  assert (Ha : py_truthy (append_mode ex_self_overwrite) = false) by reflexivity.
  assert (Hnd : is_dir (mkWorld ∅ ∅ []) "output_data" = false) by reflexivity.
  split; [exact Hwf|]. split; [exact Ha|]. split; [exact Hnd|].
  destruct (initialize_files_overwrite_without_directory _ _ Hwf Ha Hnd) as (e & _ & E).
  rewrite E. reflexivity.
Defined.

Lemma header_flag_off_only_if_file_exists_witness :
  let s1 := snd (initialize_files (ex_self, ex_world)) in
  let s2 := snd (initialize_files s1) in
  reachable s2 /\ write_header_data (fst s2) = false /\
  is_Some (w_fs (snd s2) !! data_path (fst s2)).
Proof.
  intros s1 s2.
  assert (Hr : reachable s2).
  { apply reach_initialize, reach_initialize.
    apply (reach_init ex_cfg (mkWorld ∅ ∅ [])). vm_compute. reflexivity. }
  assert (Hf : write_header_data (fst s2) = false) by (vm_compute; reflexivity).
  split; [exact Hr|]. split; [exact Hf|].
  exact (proj1 (header_flag_off_only_if_file_exists s2 Hr) Hf).
Defined.
